(** * dev-server.py: the development server with its logging endpoint

    A shallow embedding of [src/dev-server.py] and the properties of its
    request handlers.

    The program is a [SimpleHTTPRequestHandler] subclass with two methods,
    [do_POST] and [do_OPTIONS], a function [run] and a command-line entry
    point.  The methods are embedded as computations in a state-and-exception
    monad over a [World] that holds what the handlers can touch: the clock,
    the file [debug.log], standard output and the bytes sent on the
    connection.  Python's own library ([int], [bytes.decode], [json.loads],
    [repr]) is an interface, [PyRuntime]: the theorems hold for every
    implementation of it, and [Reference.runtime] is an executable one on
    which the handlers are run on concrete requests. *)

From Stdlib Require Import List ZArith NArith Bool Lia.
From Stdlib Require Import Strings.String Strings.Ascii Strings.Byte.
Import ListNotations.

Set Implicit Arguments.
Set Warnings "-register-all".

(** ** Python values *)

(** A Python [str] is a sequence of code points, a [bytes] a sequence of
    bytes. *)
Definition pystr := list N.
Definition pybytes := list byte.

Definition pystr_eq_dec : forall s t : pystr, {s = t} + {s <> t} :=
  list_eq_dec N.eq_dec.

Definition pystr_eqb (s t : pystr) : bool :=
  if pystr_eq_dec s t then true else false.

(** For ASCII text, [u "abc"] is the [str] literal ['abc'] and [b "abc"] the
    [bytes] literal [b'abc']. *)
Fixpoint u (s : string) : pystr :=
  match s with
  | EmptyString => []
  | String c s' => N_of_ascii c :: u s'
  end.

Definition b (s : string) : pybytes := list_byte_of_string s.

(** The double quote, as a code point and as a byte. *)
Definition dquote : N := 34.
Definition bquote : byte := x22.

(** What [json.loads] returns: [None], [bool], [int], [float], [str], [list]
    and [dict] (keys in insertion order).  A [float] is carried by the text
    [repr] gives for it, which identifies it. *)
Inductive value : Type :=
| VNone
| VBool (x : bool)
| VInt (z : Z)
| VFloat (shown : pystr)
| VStr (s : pystr)
| VList (items : list value)
| VDict (entries : list (pystr * value)).

(** Exceptions, all of them subclasses of [Exception]; [exn_str] is what
    [str(e)] gives. *)
Inductive exn_class :=
| TypeError | ValueError | UnicodeDecodeError | UnicodeEncodeError
| JSONDecodeError | AttributeError | OSError | RecursionError
| OverflowError | MemoryError.

Record exn := Exn { exn_type : exn_class; exn_str : pystr }.

Inductive pyresult (A : Type) : Type :=
| Ok (a : A)
| Raise (e : exn).
Arguments Ok {A} a.
Arguments Raise {A} e.

(** The part of Python's library the program calls and that is not its own
    code. *)
Class PyRuntime := {
  (** [int(s)] for a [str] *)
  int_of_str : pystr -> pyresult Z;
  (** [data.decode('utf-8')] *)
  bytes_decode_utf8 : pybytes -> pyresult pystr;
  (** [json.loads(text)] *)
  json_loads : pystr -> pyresult value;
  (** [repr(s)] for a [str] *)
  repr_str : pystr -> pystr;
  (** whether the machine has room for a [bytes] of that many bytes *)
  can_allocate : Z -> bool
}.

(** ** Decimal numerals and [datetime.isoformat] *)

Fixpoint uint_codes (d : Decimal.uint) : pystr :=
  match d with
  | Decimal.Nil => []
  | Decimal.D0 d => 48%N :: uint_codes d
  | Decimal.D1 d => 49%N :: uint_codes d
  | Decimal.D2 d => 50%N :: uint_codes d
  | Decimal.D3 d => 51%N :: uint_codes d
  | Decimal.D4 d => 52%N :: uint_codes d
  | Decimal.D5 d => 53%N :: uint_codes d
  | Decimal.D6 d => 54%N :: uint_codes d
  | Decimal.D7 d => 55%N :: uint_codes d
  | Decimal.D8 d => 56%N :: uint_codes d
  | Decimal.D9 d => 57%N :: uint_codes d
  end.

(** [str(z)] for an [int]. *)
Definition str_int (z : Z) : pystr :=
  match z with
  | Zneg p => u "-" ++ uint_codes (Pos.to_uint p)
  | _ => uint_codes (N.to_uint (Z.to_N z))
  end.

(** The digit of weight [10^k] of [n], as a character. *)
Definition digit_at (n : N) (k : N) : N := (48 + (n / 10 ^ k) mod 10)%N.

(** [n] on [width] digits, zero padded: [%0<width>d] on a number below
    [10^width], which the fields of a [datetime] are. *)
Fixpoint zero_padded (width : nat) (n : N) : pystr :=
  match width with
  | O => []
  | S k => digit_at n (N.of_nat k) :: zero_padded k n
  end.

(** A naive [datetime], as [datetime.now()] returns. *)
Record datetime := {
  year : N; month : N; day : N;
  hour : N; minute : N; second : N; microsecond : N
}.

(** [dt.isoformat()]: [YYYY-MM-DDTHH:MM:SS.ffffff], or [YYYY-MM-DDTHH:MM:SS]
    when the microsecond is 0. *)
Definition isoformat (dt : datetime) : pystr :=
  zero_padded 4 (year dt) ++ u "-" ++ zero_padded 2 (month dt) ++ u "-"
  ++ zero_padded 2 (day dt) ++ u "T"
  ++ zero_padded 2 (hour dt) ++ u ":" ++ zero_padded 2 (minute dt) ++ u ":"
  ++ zero_padded 2 (second dt)
  ++ (if N.eqb (microsecond dt) 0 then []
      else u "." ++ zero_padded 6 (microsecond dt)).

Definition is_digit (c : N) : bool := (N.leb 48 c && N.leb c 57)%bool.



(** The number of line ends in a text. *)
Definition count_newlines (s : pystr) : nat :=
  List.length (filter (N.eqb 10) s).

(** ** Formatting a value in an f-string *)

Definition join_with (sep : pystr) (parts : list pystr) : pystr :=
  match parts with
  | [] => []
  | p :: ps => p ++ List.concat (map (fun q => sep ++ q) ps)
  end.

Section Formatting.
Context {rt : PyRuntime}.

(** [repr(v)] *)
Fixpoint py_repr (v : value) : pystr :=
  match v with
  | VNone => u "None"
  | VBool true => u "True"
  | VBool false => u "False"
  | VInt z => str_int z
  | VFloat shown => shown
  | VStr s => repr_str s
  | VList items => u "[" ++ join_with (u ", ") (map py_repr items) ++ u "]"
  | VDict entries =>
      u "{"
      ++ join_with (u ", ")
           (map (fun kv => repr_str (fst kv) ++ u ": " ++ py_repr (snd kv))
                entries)
      ++ u "}"
  end.

(** [format(v, '')], what [{v}] in an f-string produces: [str(v)], which is
    the string itself for a [str] and [repr(v)] for the other types. *)
Definition py_format (v : value) : pystr :=
  match v with
  | VStr s => s
  | _ => py_repr v
  end.
End Formatting.

(** [type(v).__name__] *)
Definition type_name (v : value) : pystr :=
  match v with
  | VNone => u "NoneType"
  | VBool _ => u "bool"
  | VInt _ => u "int"
  | VFloat _ => u "float"
  | VStr _ => u "str"
  | VList _ => u "list"
  | VDict _ => u "dict"
  end.

(** [d.get(key, default)] on the entries of a [dict]: the value bound to
    [key], and [default] only when there is no such key. *)
Fixpoint dict_get (entries : list (pystr * value)) (key : pystr)
  (default : value) : value :=
  match entries with
  | [] => default
  | (k, v) :: rest =>
      if pystr_eqb k key then v else dict_get rest key default
  end.

(** [v.get(key, default)]: only a [dict] has the method. *)
Definition value_get (v : value) (key : pystr) (default : value)
  : pyresult value :=
  match v with
  | VDict entries => Ok (dict_get entries key default)
  | _ =>
      Raise (Exn AttributeError
               (u "'" ++ type_name v ++ u "' object has no attribute 'get'"))
  end.

(** ** The world of a handler *)

(** What is sent on the connection of the request being handled, one event per
    call: [send_response(code)] (the status line, with the [Server] and [Date]
    headers that the base class adds to every response), [send_header],
    [end_headers] and [wfile.write]. *)
Inductive wire_event :=
| Status (code : Z)
| Header (name value : pystr)
| EndHeaders
| Body (data : pybytes).

(** The state the program reads and writes.  [debug_log] is the text of the
    file [debug.log] of the working directory, [None] while the file does not
    exist.  [log_fault line] tells whether opening [debug.log] for appending and
    writing [line] fails (no permission, disk full, a character the file's
    encoding lacks): with which exception, and what the file holds afterwards.
    [bind_fault address] tells whether the system refuses to bind the address
    (the port is taken, or reserved), and [listening] is the address the
    server has bound, as it was asked for.  Standard output and the
    connection are taken to accept what is written to them: a [print] or a
    write to a client that fails (a closed pipe, a client that has gone) is
    outside the model, and every statement below is about the runs in which
    they do not fail. *)
Record World := {
  clock : datetime;
  debug_log : option pystr;
  log_fault : pystr -> option (exn * option pystr);
  stdout : pystr;
  wire : list wire_event;
  listening : option (pystr * Z);
  bind_fault : pystr * Z -> option exn
}.

Definition file_text (f : option pystr) : pystr :=
  match f with
  | Some text => text
  | None => []
  end.

Definition with_debug_log (f : option pystr) (w : World) : World :=
  {| clock := clock w; debug_log := f; log_fault := log_fault w;
     stdout := stdout w; wire := wire w; listening := listening w;
     bind_fault := bind_fault w |}.

Definition with_stdout (s : pystr) (w : World) : World :=
  {| clock := clock w; debug_log := debug_log w; log_fault := log_fault w;
     stdout := s; wire := wire w; listening := listening w;
     bind_fault := bind_fault w |}.

Definition with_wire (evs : list wire_event) (w : World) : World :=
  {| clock := clock w; debug_log := debug_log w; log_fault := log_fault w;
     stdout := stdout w; wire := evs; listening := listening w;
     bind_fault := bind_fault w |}.

Definition with_listening (a : option (pystr * Z)) (w : World) : World :=
  {| clock := clock w; debug_log := debug_log w; log_fault := log_fault w;
     stdout := stdout w; wire := wire w; listening := a;
     bind_fault := bind_fault w |}.

Definition with_clock (dt : datetime) (w : World) : World :=
  {| clock := dt; debug_log := debug_log w; log_fault := log_fault w;
     stdout := stdout w; wire := wire w; listening := listening w;
     bind_fault := bind_fault w |}.

(** ** Statements: state and exceptions *)

(** A statement runs in a world and either completes with a value or raises;
    what it did to the world before raising stays done. *)
Definition Py (A : Type) : Type := World -> pyresult A * World.

Definition ret {A} (a : A) : Py A := fun w => (Ok a, w).

Definition bind {A B} (m : Py A) (k : A -> Py B) : Py B :=
  fun w =>
    match m w with
    | (Ok a, w') => k a w'
    | (Raise e, w') => (Raise e, w')
    end.

(** The value of an expression that may raise. *)
Definition eval {A} (r : pyresult A) : Py A := fun w => (r, w).

(** [try: body / except Exception as e: handler]: every exception of the
    model is an [Exception]. *)
Definition try_except {A} (body : Py A) (handler : exn -> Py A) : Py A :=
  fun w =>
    match body w with
    | (Ok a, w') => (Ok a, w')
    | (Raise e, w') => handler e w'
    end.

Declare Scope py_scope.
Delimit Scope py_scope with py.
Notation "x <- m ;; k" := (bind m (fun x => k))
  (at level 61, m at next level, right associativity) : py_scope.
Notation "m ;; k" := (bind m (fun _ => k))
  (at level 61, right associativity) : py_scope.
Local Open Scope py_scope.

(** ** The calls the handlers make *)

(** [print(text, end=ending)] *)
Definition print (text ending : pystr) : Py unit :=
  fun w => (Ok tt, with_stdout (stdout w ++ text ++ ending) w).

(** [datetime.now()] *)
Definition datetime_now : Py datetime := fun w => (Ok (clock w), w).

(** [with open('debug.log', 'a') as f: f.write(line)] *)
Definition append_debug_log (line : pystr) : Py unit :=
  fun w =>
    match log_fault w line with
    | Some (e, after) => (Raise e, with_debug_log after w)
    | None =>
        (Ok tt, with_debug_log (Some (file_text (debug_log w) ++ line)) w)
    end.

Definition emit (ev : wire_event) : Py unit :=
  fun w => (Ok tt, with_wire (wire w ++ [ev]) w).

Definition send_response (code : Z) : Py unit := emit (Status code).
Definition send_header (name value : pystr) : Py unit :=
  emit (Header name value).
Definition end_headers : Py unit := emit EndHeaders.
Definition wfile_write (data : pybytes) : Py unit := emit (Body data).

(** The request as the handler object holds it: the method, the path with its
    query string, the headers in the order received, and the stream the body
    is read from: the bytes the client sends before it closes its side, or
    the error of a connection that breaks.  A client that keeps the
    connection open and sends fewer bytes than it declared makes the read
    wait; such a run has no outcome and is outside the model. *)
Inductive rfile_state :=
| Readable (data : pybytes)
| Broken (e : exn).

Record Handler := {
  command : pystr;
  path : pystr;
  headers : list (pystr * pystr);
  rfile : rfile_state
}.

Definition ascii_lower (c : N) : N :=
  if (N.leb 65 c && N.leb c 90)%bool then (c + 32)%N else c.

(** [headers[name]]: the first header of that name, case ignored, and [None]
    when there is none. *)
Fixpoint headers_getitem (hs : list (pystr * pystr)) (name : pystr)
  : option pystr :=
  match hs with
  | [] => None
  | (k, v) :: rest =>
      if pystr_eqb (map ascii_lower k) (map ascii_lower name) then Some v
      else headers_getitem rest name
  end.

Section Program.
Context {rt : PyRuntime}.

(** [rfile.read(n)] on the bytes the client sends before it closes its side
    (while the client keeps the connection open without sending, the call
    waits).  The length must fit an index of the machine, 64 bits wide; below
    -1 it is refused, and -1 reads everything.  Otherwise room for [n] bytes
    is taken first, which fails for a length that no [bytes] can have or that
    the machine cannot hold, and then [n] bytes are read, or all of them
    when there are fewer. *)
Definition rfile_read (f : rfile_state) (n : Z) : pyresult pybytes :=
  match f with
  | Broken e => Raise e
  | Readable data =>
      if ((n <? - 2 ^ 63) || (2 ^ 63 <=? n))%bool%Z then
        Raise (Exn OverflowError
                 (u "cannot fit 'int' into an index-sized integer"))
      else if (n <? -1)%Z then
        Raise (Exn ValueError (u "read length must be non-negative or -1"))
      else if (n =? -1)%Z then Ok data
      else if (2 ^ 63 - 33 <=? n)%Z then
        Raise (Exn OverflowError (u "byte string is too large"))
      else if can_allocate n then Ok (firstn (Z.to_nat n) data)
      else Raise (Exn MemoryError (u ""))
  end.

(** [int(x)] where [x] is a [str] or [None] *)
Definition py_int (x : option pystr) : pyresult Z :=
  match x with
  | Some s => int_of_str s
  | None =>
      Raise (Exn TypeError
               (u "int() argument must be a string, a bytes-like object or a real number, not 'NoneType'"))
  end.

(** ** [LoggingHTTPRequestHandler] *)

(** The f-string of [do_POST]. *)
Definition log_line (timestamp level message : pystr) : pystr :=
  u "[" ++ timestamp ++ u "] " ++ level ++ u ": " ++ message ++ [10%N].

(** [b'{"status":"ok"}'] *)
Definition status_ok : pybytes :=
  b "{" ++ [bquote] ++ b "status" ++ [bquote] ++ b ":" ++ [bquote] ++ b "ok"
  ++ [bquote] ++ b "}".

Definition do_POST (self : Handler) : Py unit :=
  if pystr_eqb (path self) (u "/api/log") then
    content_length <-
      eval (py_int (headers_getitem (headers self) (u "Content-Length")));;
    post_data <- eval (rfile_read (rfile self) content_length);;
    try_except
      (text <- eval (bytes_decode_utf8 post_data);;
       log_data <- eval (json_loads text);;
       now <- datetime_now;;
       let timestamp := isoformat now in
       level <- eval (value_get log_data (u "level") (VStr (u "LOG")));;
       message <- eval (value_get log_data (u "message") (VStr (u "")));;
       let log_message :=
         log_line timestamp (py_format level) (py_format message) in
       append_debug_log log_message;;
       print log_message (u "");;
       send_response 200;;
       send_header (u "Content-type") (u "application/json");;
       send_header (u "Access-Control-Allow-Origin") (u "*");;
       end_headers;;
       wfile_write status_ok)
      (fun e =>
         print (u "Error logging: " ++ exn_str e) [10%N];;
         send_response 500;;
         end_headers)
  else
    send_response 404;;
    end_headers.

Definition do_OPTIONS (self : Handler) : Py unit :=
  send_response 200;;
  send_header (u "Access-Control-Allow-Origin") (u "*");;
  send_header (u "Access-Control-Allow-Methods") (u "POST, OPTIONS");;
  send_header (u "Access-Control-Allow-Headers") (u "Content-Type");;
  end_headers.
End Program.

(** ** The server *)

(** One request served: how the handler ended and what it sent. *)
Record exchange := {
  outcome : pyresult unit;
  response : list wire_event
}.

Section Server.
Context {rt : PyRuntime}.

(** The methods the class inherits from [SimpleHTTPRequestHandler]
    ([do_GET], [do_HEAD]) and the base class's answer to a method without a
    handler; they are not this program's code. *)
Variable inherited : Handler -> Py unit.

(** The base class calls the method [do_<command>]. *)
Definition handle_one_request (self : Handler) : Py unit :=
  if pystr_eqb (command self) (u "POST") then do_POST self
  else if pystr_eqb (command self) (u "OPTIONS") then do_OPTIONS self
  else inherited self.

(** [httpd.serve_forever()] on the requests that arrive, each with the time
    of its arrival: every request gets a fresh connection; an exception
    that leaves the handler is reported by [socketserver] and the
    connection is closed, and the loop goes on. *)
Fixpoint serve_forever (incoming : list (datetime * Handler)) (w : World)
  : list exchange * World :=
  match incoming with
  | [] => ([], w)
  | (arrival, self) :: rest =>
      let '(r, w1) :=
        handle_one_request self (with_wire [] (with_clock arrival w)) in
      let '(done, w2) := serve_forever rest w1 in
      ({| outcome := r; response := wire w1 |} :: done, w2)
  end.

(** [HTTPServer(server_address, LoggingHTTPRequestHandler)] binds the
    address: a port that is not between 0 and 65535 is refused, and so is an
    address the system does not grant.  (Port 0 asks the system for a free
    port of its choice.) *)
Definition HTTPServer (server_address : pystr * Z) : Py unit :=
  fun w =>
    if ((snd server_address <? 0) || (65535 <? snd server_address))%bool%Z
    then (Raise (Exn OverflowError (u "bind(): port must be 0-65535.")), w)
    else
      match bind_fault w server_address with
      | Some e => (Raise e, w)
      | None => (Ok tt, with_listening (Some server_address) w)
      end.

(** [run(port)], on the requests that arrive while the server runs. *)
Definition run (port : Z) (incoming : list (datetime * Handler))
  : Py (list exchange) :=
  let server_address := (u "", port) in
  HTTPServer server_address;;
  print (u "Starting development server on port " ++ str_int port ++ u "...")
    [10%N];;
  print (u "Browser logs will be written to debug.log and shown here")
    [10%N];;
  (fun w => let '(done, w') := serve_forever incoming w in (Ok done, w')).

(** The [__main__] block, on [sys.argv]. *)
Definition main (argv : list pystr) (incoming : list (datetime * Handler))
  : Py (list exchange) :=
  port <- (if Nat.ltb 1 (List.length argv)
           then eval (int_of_str (nth 1 argv []))
           else ret 8000%Z);;
  run port incoming.
End Server.

(** ** A reference runtime

    An executable [PyRuntime], after [int], the [utf-8] codec, the [json]
    module and [repr] of CPython 3.11, messages of the exceptions included,
    on which the handlers run on concrete requests.  There is no limit on
    the depth of a JSON text, and room for a read is granted up to 4 GiB. *)
Module Reference.

Definition chr (c : ascii) : N := N_of_ascii c.

Definition is_char (c : N) (a : ascii) : bool := N.eqb c (chr a).

(** *** [int(s)] *)

(** The white space [int] strips: the ASCII white space, and the white space
    of Unicode that is not ASCII (the separators U+001C to U+001F are white
    space for [str.isspace], not for [int]). *)
Definition is_int_space (c : N) : bool :=
  ((N.leb 9 c && N.leb c 13) || N.eqb c 32
   || N.eqb c 133 || N.eqb c 160 || N.eqb c 5760
   || (N.leb 8192 c && N.leb c 8202) || N.eqb c 8232 || N.eqb c 8233
   || N.eqb c 8239 || N.eqb c 8287 || N.eqb c 12288)%bool.

(** The decimal digits of Unicode 14 come in runs of ten, from a zero on:
    the code points of the zeros. *)
Definition decimal_zeros : list N :=
  [48; 1632; 1776; 1984; 2406; 2534; 2662; 2790; 2918; 3046; 3174; 3302;
   3430; 3558; 3664; 3792; 3872; 4160; 4240; 6112; 6160; 6470; 6608; 6784;
   6800; 6992; 7088; 7232; 7248; 42528; 43216; 43264; 43472; 43504; 43600;
   44016; 65296; 66720; 68912; 69734; 69872; 69942; 70096; 70384; 70736;
   70864; 71248; 71360; 71472; 71904; 72016; 72784; 73040; 73120; 92768;
   92864; 93008; 120782; 120792; 120802; 120812; 120822; 123200; 123632;
   125264; 130032]%N.

Definition decimal_digit (c : N) : option Z :=
  match find (fun z => (N.leb z c && N.ltb c (z + 10))%bool) decimal_zeros with
  | Some z => Some (Z.of_N (c - z))
  | None => None
  end.

Fixpoint lstrip (space : N -> bool) (s : pystr) : pystr :=
  match s with
  | c :: s' => if space c then lstrip space s' else s
  | [] => []
  end.

Definition strip (space : N -> bool) (s : pystr) : pystr :=
  rev (lstrip space (rev (lstrip space s))).

Definition int_strip (s : pystr) : pystr := strip is_int_space s.

(** The digits at the head of [s], with underscores among them: their value,
    their number, what follows them, and whether every underscore stands
    between two digits. *)
Fixpoint int_digits (s : pystr) (acc : Z) (count : nat) (after_digit : bool)
  : Z * nat * pystr * bool :=
  match s with
  | c :: s' =>
      match decimal_digit c with
      | Some d => int_digits s' (acc * 10 + d) (S count) true
      | None =>
          if is_char c "_" then
            if after_digit then int_digits s' acc count false
            else (acc, count, s, false)
          else (acc, count, s, after_digit || Nat.eqb count 0)
      end
  | [] => (acc, count, [], after_digit || Nat.eqb count 0)
  end.

Definition int_max_str_digits : nat := 4300.

Definition too_many_digits (n : nat) : exn :=
  Exn ValueError
    (u "Exceeds the limit (4300 digits) for integer string conversion: value has "
     ++ str_int (Z.of_nat n)
     ++ u " digits; use sys.set_int_max_str_digits() to increase the limit").

(** Digits with single underscores between them. *)
Fixpoint digits_value (s : pystr) (acc : Z) (after_digit : bool)
  : option Z :=
  match s with
  | [] => if after_digit then Some acc else None
  | c :: s' =>
      if is_digit c then
        digits_value s' (acc * 10 + (Z.of_N c - 48)) true
      else if (is_char c "_" && after_digit)%bool then
        digits_value s' acc false
      else None
  end.

Definition signed_value (s : pystr) : option Z :=
  match s with
  | c :: s' =>
      if is_char c "-" then option_map Z.opp (digits_value s' 0 false)
      else if is_char c "+" then digits_value s' 0 false
      else digits_value s 0 false
  | [] => None
  end.

(** [repr] of a [str]: single quotes unless the text has one and no double
    quote; backslash, the quote and the characters that are not printable
    escaped.  Below U+0100 those are the control characters, the no-break
    space and the soft hyphen; from U+0100 on, the code points that Unicode
    14 leaves unassigned or classes as separators, format characters,
    surrogates and private use, listed here as ranges. *)
Definition hex_digit (n : N) : N :=
  if N.ltb n 10 then (48 + n)%N else (87 + n)%N.

Fixpoint hex_digits (width : nat) (n : N) : pystr :=
  match width with
  | O => []
  | S w => hex_digits w (n / 16) ++ [hex_digit (n mod 16)]
  end.

Definition unprintable_ranges : list (N * N) :=
  [(888, 889); (896, 899); (907, 907); (909, 909); (930, 930); (1328, 1328);
   (1367, 1368); (1419, 1420); (1424, 1424); (1480, 1487); (1515, 1518);
   (1525, 1541); (1564, 1564); (1757, 1757); (1806, 1807); (1867, 1868);
   (1970, 1983); (2043, 2044); (2094, 2095); (2111, 2111); (2140, 2141);
   (2143, 2143); (2155, 2159); (2191, 2199); (2274, 2274); (2436, 2436);
   (2445, 2446); (2449, 2450); (2473, 2473); (2481, 2481); (2483, 2485);
   (2490, 2491); (2501, 2502); (2505, 2506); (2511, 2518); (2520, 2523);
   (2526, 2526); (2532, 2533); (2559, 2560); (2564, 2564); (2571, 2574);
   (2577, 2578); (2601, 2601); (2609, 2609); (2612, 2612); (2615, 2615);
   (2618, 2619); (2621, 2621); (2627, 2630); (2633, 2634); (2638, 2640);
   (2642, 2648); (2653, 2653); (2655, 2661); (2679, 2688); (2692, 2692);
   (2702, 2702); (2706, 2706); (2729, 2729); (2737, 2737); (2740, 2740);
   (2746, 2747); (2758, 2758); (2762, 2762); (2766, 2767); (2769, 2783);
   (2788, 2789); (2802, 2808); (2816, 2816); (2820, 2820); (2829, 2830);
   (2833, 2834); (2857, 2857); (2865, 2865); (2868, 2868); (2874, 2875);
   (2885, 2886); (2889, 2890); (2894, 2900); (2904, 2907); (2910, 2910);
   (2916, 2917); (2936, 2945); (2948, 2948); (2955, 2957); (2961, 2961);
   (2966, 2968); (2971, 2971); (2973, 2973); (2976, 2978); (2981, 2983);
   (2987, 2989); (3002, 3005); (3011, 3013); (3017, 3017); (3022, 3023);
   (3025, 3030); (3032, 3045); (3067, 3071); (3085, 3085); (3089, 3089);
   (3113, 3113); (3130, 3131); (3141, 3141); (3145, 3145); (3150, 3156);
   (3159, 3159); (3163, 3164); (3166, 3167); (3172, 3173); (3184, 3190);
   (3213, 3213); (3217, 3217); (3241, 3241); (3252, 3252); (3258, 3259);
   (3269, 3269); (3273, 3273); (3278, 3284); (3287, 3292); (3295, 3295);
   (3300, 3301); (3312, 3312); (3315, 3327); (3341, 3341); (3345, 3345);
   (3397, 3397); (3401, 3401); (3408, 3411); (3428, 3429); (3456, 3456);
   (3460, 3460); (3479, 3481); (3506, 3506); (3516, 3516); (3518, 3519);
   (3527, 3529); (3531, 3534); (3541, 3541); (3543, 3543); (3552, 3557);
   (3568, 3569); (3573, 3584); (3643, 3646); (3676, 3712); (3715, 3715);
   (3717, 3717); (3723, 3723); (3748, 3748); (3750, 3750); (3774, 3775);
   (3781, 3781); (3783, 3783); (3790, 3791); (3802, 3803); (3808, 3839);
   (3912, 3912); (3949, 3952); (3992, 3992); (4029, 4029); (4045, 4045);
   (4059, 4095); (4294, 4294); (4296, 4300); (4302, 4303); (4681, 4681);
   (4686, 4687); (4695, 4695); (4697, 4697); (4702, 4703); (4745, 4745);
   (4750, 4751); (4785, 4785); (4790, 4791); (4799, 4799); (4801, 4801);
   (4806, 4807); (4823, 4823); (4881, 4881); (4886, 4887); (4955, 4956);
   (4989, 4991); (5018, 5023); (5110, 5111); (5118, 5119); (5760, 5760);
   (5789, 5791); (5881, 5887); (5910, 5918); (5943, 5951); (5972, 5983);
   (5997, 5997); (6001, 6001); (6004, 6015); (6110, 6111); (6122, 6127);
   (6138, 6143); (6158, 6158); (6170, 6175); (6265, 6271); (6315, 6319);
   (6390, 6399); (6431, 6431); (6444, 6447); (6460, 6463); (6465, 6467);
   (6510, 6511); (6517, 6527); (6572, 6575); (6602, 6607); (6619, 6621);
   (6684, 6685); (6751, 6751); (6781, 6782); (6794, 6799); (6810, 6815);
   (6830, 6831); (6863, 6911); (6989, 6991); (7039, 7039); (7156, 7163);
   (7224, 7226); (7242, 7244); (7305, 7311); (7355, 7356); (7368, 7375);
   (7419, 7423); (7958, 7959); (7966, 7967); (8006, 8007); (8014, 8015);
   (8024, 8024); (8026, 8026); (8028, 8028); (8030, 8030); (8062, 8063);
   (8117, 8117); (8133, 8133); (8148, 8149); (8156, 8156); (8176, 8177);
   (8181, 8181); (8191, 8207); (8232, 8239); (8287, 8303); (8306, 8307);
   (8335, 8335); (8349, 8351); (8385, 8399); (8433, 8447); (8588, 8591);
   (9255, 9279); (9291, 9311); (11124, 11125); (11158, 11158);
   (11508, 11512); (11558, 11558); (11560, 11564); (11566, 11567);
   (11624, 11630); (11633, 11646); (11671, 11679); (11687, 11687);
   (11695, 11695); (11703, 11703); (11711, 11711); (11719, 11719);
   (11727, 11727); (11735, 11735); (11743, 11743); (11870, 11903);
   (11930, 11930); (12020, 12031); (12246, 12271); (12284, 12288);
   (12352, 12352); (12439, 12440); (12544, 12548); (12592, 12592);
   (12687, 12687); (12772, 12783); (12831, 12831); (42125, 42127);
   (42183, 42191); (42540, 42559); (42744, 42751); (42955, 42959);
   (42962, 42962); (42964, 42964); (42970, 42993); (43053, 43055);
   (43066, 43071); (43128, 43135); (43206, 43213); (43226, 43231);
   (43348, 43358); (43389, 43391); (43470, 43470); (43482, 43485);
   (43519, 43519); (43575, 43583); (43598, 43599); (43610, 43611);
   (43715, 43738); (43767, 43776); (43783, 43784); (43791, 43792);
   (43799, 43807); (43815, 43815); (43823, 43823); (43884, 43887);
   (44014, 44015); (44026, 44031); (55204, 55215); (55239, 55242);
   (55292, 63743); (64110, 64111); (64218, 64255); (64263, 64274);
   (64280, 64284); (64311, 64311); (64317, 64317); (64319, 64319);
   (64322, 64322); (64325, 64325); (64451, 64466); (64912, 64913);
   (64968, 64974); (64976, 65007); (65050, 65055); (65107, 65107);
   (65127, 65127); (65132, 65135); (65141, 65141); (65277, 65280);
   (65471, 65473); (65480, 65481); (65488, 65489); (65496, 65497);
   (65501, 65503); (65511, 65511); (65519, 65531); (65534, 65535);
   (65548, 65548); (65575, 65575); (65595, 65595); (65598, 65598);
   (65614, 65615); (65630, 65663); (65787, 65791); (65795, 65798);
   (65844, 65846); (65935, 65935); (65949, 65951); (65953, 65999);
   (66046, 66175); (66205, 66207); (66257, 66271); (66300, 66303);
   (66340, 66348); (66379, 66383); (66427, 66431); (66462, 66462);
   (66500, 66503); (66518, 66559); (66718, 66719); (66730, 66735);
   (66772, 66775); (66812, 66815); (66856, 66863); (66916, 66926);
   (66939, 66939); (66955, 66955); (66963, 66963); (66966, 66966);
   (66978, 66978); (66994, 66994); (67002, 67002); (67005, 67071);
   (67383, 67391); (67414, 67423); (67432, 67455); (67462, 67462);
   (67505, 67505); (67515, 67583); (67590, 67591); (67593, 67593);
   (67638, 67638); (67641, 67643); (67645, 67646); (67670, 67670);
   (67743, 67750); (67760, 67807); (67827, 67827); (67830, 67834);
   (67868, 67870); (67898, 67902); (67904, 67967); (68024, 68027);
   (68048, 68049); (68100, 68100); (68103, 68107); (68116, 68116);
   (68120, 68120); (68150, 68151); (68155, 68158); (68169, 68175);
   (68185, 68191); (68256, 68287); (68327, 68330); (68343, 68351);
   (68406, 68408); (68438, 68439); (68467, 68471); (68498, 68504);
   (68509, 68520); (68528, 68607); (68681, 68735); (68787, 68799);
   (68851, 68857); (68904, 68911); (68922, 69215); (69247, 69247);
   (69290, 69290); (69294, 69295); (69298, 69375); (69416, 69423);
   (69466, 69487); (69514, 69551); (69580, 69599); (69623, 69631);
   (69710, 69713); (69750, 69758); (69821, 69821); (69827, 69839);
   (69865, 69871); (69882, 69887); (69941, 69941); (69960, 69967);
   (70007, 70015); (70112, 70112); (70133, 70143); (70162, 70162);
   (70207, 70271); (70279, 70279); (70281, 70281); (70286, 70286);
   (70302, 70302); (70314, 70319); (70379, 70383); (70394, 70399);
   (70404, 70404); (70413, 70414); (70417, 70418); (70441, 70441);
   (70449, 70449); (70452, 70452); (70458, 70458); (70469, 70470);
   (70473, 70474); (70478, 70479); (70481, 70486); (70488, 70492);
   (70500, 70501); (70509, 70511); (70517, 70655); (70748, 70748);
   (70754, 70783); (70856, 70863); (70874, 71039); (71094, 71095);
   (71134, 71167); (71237, 71247); (71258, 71263); (71277, 71295);
   (71354, 71359); (71370, 71423); (71451, 71452); (71468, 71471);
   (71495, 71679); (71740, 71839); (71923, 71934); (71943, 71944);
   (71946, 71947); (71956, 71956); (71959, 71959); (71990, 71990);
   (71993, 71994); (72007, 72015); (72026, 72095); (72104, 72105);
   (72152, 72153); (72165, 72191); (72264, 72271); (72355, 72367);
   (72441, 72703); (72713, 72713); (72759, 72759); (72774, 72783);
   (72813, 72815); (72848, 72849); (72872, 72872); (72887, 72959);
   (72967, 72967); (72970, 72970); (73015, 73017); (73019, 73019);
   (73022, 73022); (73032, 73039); (73050, 73055); (73062, 73062);
   (73065, 73065); (73103, 73103); (73106, 73106); (73113, 73119);
   (73130, 73439); (73465, 73647); (73649, 73663); (73714, 73726);
   (74650, 74751); (74863, 74863); (74869, 74879); (75076, 77711);
   (77811, 77823); (78895, 82943); (83527, 92159); (92729, 92735);
   (92767, 92767); (92778, 92781); (92863, 92863); (92874, 92879);
   (92910, 92911); (92918, 92927); (92998, 93007); (93018, 93018);
   (93026, 93026); (93048, 93052); (93072, 93759); (93851, 93951);
   (94027, 94030); (94088, 94094); (94112, 94175); (94181, 94191);
   (94194, 94207); (100344, 100351); (101590, 101631); (101641, 110575);
   (110580, 110580); (110588, 110588); (110591, 110591); (110883, 110927);
   (110931, 110947); (110952, 110959); (111356, 113663); (113771, 113775);
   (113789, 113791); (113801, 113807); (113818, 113819); (113824, 118527);
   (118574, 118575); (118599, 118607); (118724, 118783); (119030, 119039);
   (119079, 119080); (119155, 119162); (119275, 119295); (119366, 119519);
   (119540, 119551); (119639, 119647); (119673, 119807); (119893, 119893);
   (119965, 119965); (119968, 119969); (119971, 119972); (119975, 119976);
   (119981, 119981); (119994, 119994); (119996, 119996); (120004, 120004);
   (120070, 120070); (120075, 120076); (120085, 120085); (120093, 120093);
   (120122, 120122); (120127, 120127); (120133, 120133); (120135, 120137);
   (120145, 120145); (120486, 120487); (120780, 120781); (121484, 121498);
   (121504, 121504); (121520, 122623); (122655, 122879); (122887, 122887);
   (122905, 122906); (122914, 122914); (122917, 122917); (122923, 123135);
   (123181, 123183); (123198, 123199); (123210, 123213); (123216, 123535);
   (123567, 123583); (123642, 123646); (123648, 124895); (124903, 124903);
   (124908, 124908); (124911, 124911); (124927, 124927); (125125, 125126);
   (125143, 125183); (125260, 125263); (125274, 125277); (125280, 126064);
   (126133, 126208); (126270, 126463); (126468, 126468); (126496, 126496);
   (126499, 126499); (126501, 126502); (126504, 126504); (126515, 126515);
   (126520, 126520); (126522, 126522); (126524, 126529); (126531, 126534);
   (126536, 126536); (126538, 126538); (126540, 126540); (126544, 126544);
   (126547, 126547); (126549, 126550); (126552, 126552); (126554, 126554);
   (126556, 126556); (126558, 126558); (126560, 126560); (126563, 126563);
   (126565, 126566); (126571, 126571); (126579, 126579); (126584, 126584);
   (126589, 126589); (126591, 126591); (126602, 126602); (126620, 126624);
   (126628, 126628); (126634, 126634); (126652, 126703); (126706, 126975);
   (127020, 127023); (127124, 127135); (127151, 127152); (127168, 127168);
   (127184, 127184); (127222, 127231); (127406, 127461); (127491, 127503);
   (127548, 127551); (127561, 127567); (127570, 127583); (127590, 127743);
   (128728, 128732); (128749, 128751); (128765, 128767); (128884, 128895);
   (128985, 128991); (129004, 129007); (129009, 129023); (129036, 129039);
   (129096, 129103); (129114, 129119); (129160, 129167); (129198, 129199);
   (129202, 129279); (129620, 129631); (129646, 129647); (129653, 129655);
   (129661, 129663); (129671, 129679); (129709, 129711); (129723, 129727);
   (129734, 129743); (129754, 129759); (129768, 129775); (129783, 129791);
   (129939, 129939); (129995, 130031); (130042, 131071); (173792, 173823);
   (177977, 177983); (178206, 178207); (183970, 183983); (191457, 194559);
   (195102, 196607); (201547, 917759); (918000, 1114111)]%N.

Definition is_printable (c : N) : bool :=
  if N.ltb c 256 then
    negb (N.ltb c 32 || (N.leb 127 c && N.leb c 160) || N.eqb c 173)
  else
    negb (existsb (fun r => (N.leb (fst r) c && N.leb c (snd r))%bool)
            unprintable_ranges).

Definition repr_char (quote : N) (c : N) : pystr :=
  if N.eqb c 92 then [92; 92]%N
  else if N.eqb c quote then [92%N; c]
  else if N.eqb c 9 then u "\t"
  else if N.eqb c 10 then u "\n"
  else if N.eqb c 13 then u "\r"
  else if is_printable c then [c]
  else if N.ltb c 256 then u "\x" ++ hex_digits 2 c
  else if N.ltb c 65536 then u "\u" ++ hex_digits 4 c
  else u "\U" ++ hex_digits 8 c.

Definition has_char (c : N) (s : pystr) : bool := existsb (N.eqb c) s.

Definition repr_str_ref (s : pystr) : pystr :=
  let quote :=
    if (has_char 39 s && negb (has_char dquote s))%bool then dquote
    else 39%N in
  [quote] ++ List.concat (map (repr_char quote) s) ++ [quote].

(** [int(s)]: the white space stripped, a sign, then digits; more digits
    than the limit are refused before what follows them is looked at.  The
    message of a literal that is not one shows 200 characters of it. *)
Definition int_of_str_ref (s : pystr) : pyresult Z :=
  let invalid :=
    Raise (Exn ValueError
             (u "invalid literal for int() with base 10: "
              ++ firstn 200 (repr_str_ref s))) in
  let '(negative, body) :=
    match int_strip s with
    | c :: s' =>
        if is_char c "-" then (true, s')
        else if is_char c "+" then (false, s')
        else (false, c :: s')
    | [] => (false, [])
    end in
  let '(z, count, rest, well_formed) := int_digits body 0 0 false in
  if negb well_formed then invalid
  else if Nat.ltb int_max_str_digits count then Raise (too_many_digits count)
  else
    match count, rest with
    | S _, [] => Ok (if negative then (- z)%Z else z)
    | _, _ => invalid
    end.

(** *** [bytes.decode('utf-8')]: the strict decoder *)

Definition is_cont (x : N) : bool := (N.leb 128 x && N.leb x 191)%bool.

Definition low6 (x : N) : N := N.land x 63.

(** What the decoder found wrong, for the text of the exception. *)
Inductive utf8_reason := InvalidStart | InvalidContinuation | UnexpectedEnd.

(** The code points, or the place of the first wrong sequence: its offset,
    how many bytes of it the decoder blames, and why. *)
Inductive utf8_decoded :=
| Points (s : pystr)
| Wrong (start : nat) (bytes : nat) (reason : utf8_reason).

Definition then_points (c : N) (r : utf8_decoded) : utf8_decoded :=
  match r with
  | Points s => Points (c :: s)
  | Wrong _ _ _ => r
  end.

Fixpoint utf8_points (bs : list N) (pos : nat) : utf8_decoded :=
  match bs with
  | [] => Points []
  | b0 :: r0 =>
      if N.ltb b0 128 then then_points b0 (utf8_points r0 (1 + pos))
      else if N.ltb b0 194 then Wrong pos 1 InvalidStart
      else if N.ltb b0 224 then
        match r0 with
        | [] => Wrong pos 1 UnexpectedEnd
        | b1 :: r1 =>
            if is_cont b1 then
              then_points (N.land b0 31 * 64 + low6 b1)%N
                (utf8_points r1 (2 + pos))
            else Wrong pos 1 InvalidContinuation
        end
      else if N.ltb b0 240 then
        match r0 with
        | [] => Wrong pos 1 UnexpectedEnd
        | b1 :: r1 =>
            if (negb (is_cont b1)
                || (if N.ltb b1 160 then N.eqb b0 224 else N.eqb b0 237))%bool
            then Wrong pos 1 InvalidContinuation
            else
              match r1 with
              | [] => Wrong pos 2 UnexpectedEnd
              | b2 :: r2 =>
                  if is_cont b2 then
                    then_points
                      (N.land b0 15 * 4096 + low6 b1 * 64 + low6 b2)%N
                      (utf8_points r2 (3 + pos))
                  else Wrong pos 2 InvalidContinuation
              end
        end
      else if N.ltb b0 245 then
        match r0 with
        | [] => Wrong pos 1 UnexpectedEnd
        | b1 :: r1 =>
            if (negb (is_cont b1)
                || (if N.ltb b1 144 then N.eqb b0 240 else N.eqb b0 244))%bool
            then Wrong pos 1 InvalidContinuation
            else
              match r1 with
              | [] => Wrong pos 2 UnexpectedEnd
              | b2 :: r2 =>
                  if is_cont b2 then
                    match r2 with
                    | [] => Wrong pos 3 UnexpectedEnd
                    | b3 :: r3 =>
                        if is_cont b3 then
                          then_points
                            (N.land b0 7 * 262144 + low6 b1 * 4096
                             + low6 b2 * 64 + low6 b3)%N
                            (utf8_points r3 (4 + pos))
                        else Wrong pos 3 InvalidContinuation
                    end
                  else Wrong pos 2 InvalidContinuation
              end
        end
      else Wrong pos 1 InvalidStart
  end.

Definition utf8_reason_text (r : utf8_reason) : pystr :=
  match r with
  | InvalidStart => u "invalid start byte"
  | InvalidContinuation => u "invalid continuation byte"
  | UnexpectedEnd => u "unexpected end of data"
  end.

Definition bytes_decode_utf8_ref (data : pybytes) : pyresult pystr :=
  let bs := map Byte.to_N data in
  match utf8_points bs 0 with
  | Points s => Ok s
  | Wrong start bytes reason =>
      Raise (Exn UnicodeDecodeError
               (u "'utf-8' codec can't decode "
                ++ (if Nat.eqb bytes 1 then
                      let x := nth start bs 0%N in
                      u "byte 0x" ++ hex_digits 2 x
                      ++ u " in position " ++ str_int (Z.of_nat start)
                    else
                      u "bytes in position " ++ str_int (Z.of_nat start)
                      ++ u "-" ++ str_int (Z.of_nat (start + bytes - 1)))
                ++ u ": " ++ utf8_reason_text reason))
  end.

(** *** Writing text to a file opened with the UTF-8 encoding *)





(** *** [json.loads] *)

(** The result of a scanner on a suffix of the text: the value and what is
    left, or the syntax error and how much was left where it was found, or
    another exception. *)
Inductive scanned (A : Type) : Type :=
| Scanned (a : A) (rest : pystr)
| Failed (msg : pystr) (remaining : nat)
| Aborted (e : exn).
Arguments Scanned {A} a rest.
Arguments Failed {A} msg remaining.
Arguments Aborted {A} e.

Definition is_ws (c : N) : bool :=
  (N.eqb c 32 || N.eqb c 9 || N.eqb c 10 || N.eqb c 13)%bool.

Fixpoint skip_ws (s : pystr) : pystr :=
  match s with
  | c :: s' => if is_ws c then skip_ws s' else s
  | [] => []
  end.

(** [s] without the prefix [kw], when it starts with it. *)
Fixpoint after_prefix (kw s : pystr) : option pystr :=
  match kw, s with
  | [], _ => Some s
  | k :: kw', c :: s' => if N.eqb k c then after_prefix kw' s' else None
  | _ :: _, [] => None
  end.

Definition hex_value (c : N) : option N :=
  if is_digit c then Some (c - 48)%N
  else if (N.leb 97 c && N.leb c 102)%bool then Some (c - 87)%N
  else if (N.leb 65 c && N.leb c 70)%bool then Some (c - 55)%N
  else None.

Definition hex4 (h1 h2 h3 h4 : N) : option N :=
  match hex_value h1, hex_value h2, hex_value h3, hex_value h4 with
  | Some a, Some b, Some c, Some d =>
      Some (a * 4096 + b * 256 + c * 16 + d)%N
  | _, _, _, _ => None
  end.

Definition simple_escape (e : N) : option N :=
  if N.eqb e dquote then Some dquote
  else if is_char e "\" then Some 92%N
  else if is_char e "/" then Some 47%N
  else if is_char e "b" then Some 8%N
  else if is_char e "f" then Some 12%N
  else if is_char e "n" then Some 10%N
  else if is_char e "r" then Some 13%N
  else if is_char e "t" then Some 9%N
  else None.

Definition is_high_surrogate (c : N) : bool :=
  (N.leb 55296 c && N.leb c 56319)%bool.
Definition is_low_surrogate (c : N) : bool :=
  (N.leb 56320 c && N.leb c 57343)%bool.

(** The low surrogate of an escape [\uXXXX] at the head of [s], and what
    follows it; the scanner wants a character after an escape. *)
Definition low_surrogate_escape (s : pystr) : option (N * pystr) :=
  match s with
  | bs :: uu :: h1 :: h2 :: h3 :: h4 :: next :: rest =>
      if (is_char bs "\" && is_char uu "u")%bool then
        match hex4 h1 h2 h3 h4 with
        | Some lo =>
            if is_low_surrogate lo then Some (lo, next :: rest) else None
        | None => None
        end
      else None
  | _ => None
  end.

(** The string whose opening quote has been read; [opening] is what was
    left of the text at that quote. *)
Fixpoint scanstring (fuel : nat) (s : pystr) (acc : pystr) (opening : nat)
  : scanned pystr :=
  match fuel with
  | O => Failed (u "Unterminated string starting at") opening
  | S fuel' =>
      match s with
      | [] => Failed (u "Unterminated string starting at") opening
      | c :: rest =>
          if N.eqb c dquote then Scanned (rev acc) rest
          else if N.ltb c 32 then
            Failed (u "Invalid control character at") (List.length s)
          else if is_char c "\" then
            match rest with
            | [] => Failed (u "Unterminated string starting at") opening
            | e :: rest1 =>
                if is_char e "u" then
                  match rest1 with
                  | h1 :: h2 :: h3 :: h4 :: next :: rest2 =>
                      match hex4 h1 h2 h3 h4 with
                      | Some hi =>
                          match
                            (if is_high_surrogate hi
                             then low_surrogate_escape (next :: rest2)
                             else None)
                          with
                          | Some (lo, rest3) =>
                              scanstring fuel' rest3
                                ((65536 + (hi - 55296) * 1024
                                  + (lo - 56320))%N :: acc) opening
                          | None =>
                              scanstring fuel' (next :: rest2) (hi :: acc)
                                opening
                          end
                      | None =>
                          Failed (u "Invalid \uXXXX escape")
                            (List.length rest)
                      end
                  | _ =>
                      Failed (u "Invalid \uXXXX escape") (List.length rest)
                  end
                else
                  match simple_escape e with
                  | Some x => scanstring fuel' rest1 (x :: acc) opening
                  | None => Failed (u "Invalid \escape") (List.length s)
                  end
            end
          else scanstring fuel' rest (c :: acc) opening
      end
  end.

Fixpoint span_digits (s : pystr) : pystr * pystr :=
  match s with
  | c :: s' =>
      if is_digit c then let '(ds, r) := span_digits s' in (c :: ds, r)
      else ([], s)
  | [] => ([], [])
  end.

(** The integer part of a number (an optional minus sign, then a lone 0 or
    digits that do not start with 0) and what follows it. *)
Definition match_integer (s : pystr) : option (pystr * pystr) :=
  let '(sign, s1) :=
    match s with
    | c :: s' => if is_char c "-" then ([c], s') else ([], s)
    | [] => ([], s)
    end in
  match s1 with
  | c :: s2 =>
      if is_char c "0" then Some (sign ++ [c], s2)
      else if is_digit c then
        let '(ds, r) := span_digits s1 in Some (sign ++ ds, r)
      else None
  | [] => None
  end.

(** Whether a fraction (a dot and digits) or an exponent (e or E, an
    optional sign, digits) follows the integer part. *)
Definition has_fraction (s : pystr) : bool :=
  match s with
  | dot :: d :: _ => (is_char dot "." && is_digit d)%bool
  | _ => false
  end.

Definition has_exponent (s : pystr) : bool :=
  match s with
  | e :: d :: more =>
      ((is_char e "e" || is_char e "E")
       && (is_digit d
           || ((is_char d "-" || is_char d "+")
               && match more with
                  | d' :: _ => is_digit d'
                  | [] => false
                  end)))%bool
  | _ => false
  end.

(** [dict(pairs)]: a later pair of the same key replaces the value and keeps
    the place of the first. *)
Fixpoint dict_set (entries : list (pystr * value)) (k : pystr) (v : value)
  : list (pystr * value) :=
  match entries with
  | [] => [(k, v)]
  | (k', v') :: rest =>
      if pystr_eqb k' k then (k, v) :: rest
      else (k', v') :: dict_set rest k v
  end.

Definition dict_of_pairs (pairs : list (pystr * value))
  : list (pystr * value) :=
  fold_left (fun d kv => dict_set d (fst kv) (snd kv)) pairs [].

Definition expecting_value {A} (s : pystr) : scanned A :=
  Failed (u "Expecting value") (List.length s).

Definition too_deep : exn :=
  Exn RecursionError (u "maximum recursion depth exceeded").

(** *** [float(literal)] and the [repr] of a [float] *)

(** A positive rational [num / den] rounded to an integer, ties to even. *)
Definition round_half_even (num den : Z) : Z :=
  let q := (num / den)%Z in
  match (2 * (num mod den) ?= den)%Z with
  | Lt => q
  | Gt => (q + 1)%Z
  | Eq => if Z.even q then q else (q + 1)%Z
  end.

(** [num / den] against a power of the base, and divided by one. *)
Definition at_least_power (base num den c : Z) : bool :=
  if (0 <=? c)%Z then (den * base ^ c <=? num)%Z
  else (den <=? num * base ^ (- c))%Z.

Definition round_scaled (base num den c : Z) : Z :=
  if (0 <=? c)%Z then round_half_even num (den * base ^ c)
  else round_half_even (num * base ^ (- c)) den.

(** A positive binary64 number is [m * 2^e] with [m] on 53 bits at most and
    [e] from -1074; the other results of a rounding are zero and infinity. *)
Inductive binary64 :=
| Finite (m e : Z)
| Underflow
| Overflow.

(** The binary64 number nearest to [num / den], both positive. *)
Definition to_binary64 (num den : Z) : binary64 :=
  let a := (Z.log2 num - Z.log2 den)%Z in
  let l := if at_least_power 2 num den a then a else (a - 1)%Z in
  let e := Z.max (l - 52) (-1074) in
  let m := round_scaled 2 num den e in
  let '(m, e) :=
    if (m =? 2 ^ 53)%Z then ((2 ^ 52)%Z, (e + 1)%Z) else (m, e) in
  if (m =? 0)%Z then Underflow
  else if (971 <? e)%Z then Overflow
  else Finite m e.

(** The positive decimal [digits * 10^e10] as a fraction. *)
Definition decimal_fraction (digits e10 : Z) : Z * Z :=
  if (0 <=? e10)%Z then ((digits * 10 ^ e10)%Z, 1%Z)
  else (digits, (10 ^ (- e10))%Z).

Definition binary64_of_decimal (digits e10 : Z) : binary64 :=
  if (digits =? 0)%Z then Underflow
  else
    let size := (Z.log2 digits * 30103 / 100000 + e10)%Z in
    if (400 <? size)%Z then Overflow
    else if (size <? -400)%Z then Underflow
    else let '(num, den) := decimal_fraction digits e10 in
         to_binary64 num den.

(** The largest [c] with [10^c <= num / den]. *)
Definition floor_log10 (num den : Z) : Z :=
  let guess := ((Z.log2 num - Z.log2 den) * 30103 / 100000)%Z in
  if at_least_power 10 num den (guess + 2) then (guess + 2)%Z
  else if at_least_power 10 num den (guess + 1) then (guess + 1)%Z
  else if at_least_power 10 num den guess then guess
  else if at_least_power 10 num den (guess - 1) then (guess - 1)%Z
  else (guess - 2)%Z.

Fixpoint strip_zeros (rev_digits : pystr) : pystr :=
  match rev_digits with
  | c :: r => if N.eqb c 48 then strip_zeros r else rev_digits
  | [] => []
  end.

(** The shortest decimal that reads back as [m * 2^e]: its digits, and the
    place [decpt] of the decimal point, the value being [0.digits * 10^decpt].
    [tries] counts the lengths still to try, from [k] digits on. *)
Fixpoint shortest_digits (tries : nat) (k : Z) (m e : Z) : pystr * Z :=
  let '(num, den) :=
    if (0 <=? e)%Z then ((m * 2 ^ e)%Z, 1%Z) else (m, (2 ^ (- e))%Z) in
  let top := floor_log10 num den in
  let p := (top - k + 1)%Z in
  let d := round_scaled 10 num den p in
  let found :=
    (rev (strip_zeros (rev (str_int d))),
     (p + Z.of_nat (List.length (str_int d)))%Z) in
  match tries with
  | O => found
  | S tries' =>
      match binary64_of_decimal d p with
      | Finite m' e' =>
          if ((m' =? m) && (e' =? e))%bool%Z then found
          else shortest_digits tries' (k + 1) m e
      | _ => shortest_digits tries' (k + 1) m e
      end
  end.

Definition zeros (n : Z) : pystr := repeat 48%N (Z.to_nat n).

(** [repr] from the digits and the place of the point: the plain notation
    for [-4 < decpt <= 16], the exponent notation elsewhere. *)
Definition repr_digits (digits : pystr) (decpt : Z) : pystr :=
  let n := Z.of_nat (List.length digits) in
  if ((-4 <? decpt) && (decpt <=? 16))%bool%Z then
    if (decpt <=? 0)%Z then u "0." ++ zeros (- decpt) ++ digits
    else if (n <=? decpt)%Z then digits ++ zeros (decpt - n) ++ u ".0"
    else firstn (Z.to_nat decpt) digits ++ u "."
         ++ skipn (Z.to_nat decpt) digits
  else
    let x := (decpt - 1)%Z in
    firstn 1 digits
    ++ (if (1 <? n)%Z then u "." ++ skipn 1 digits else [])
    ++ u "e" ++ (if (x <? 0)%Z then u "-" else u "+")
    ++ (if (Z.abs x <? 10)%Z then u "0" else []) ++ str_int (Z.abs x).

Definition repr_binary64 (negative : bool) (x : binary64) : pystr :=
  (if negative then u "-" else [])
  ++ match x with
     | Underflow => u "0.0"
     | Overflow => u "inf"
     | Finite m e =>
         let '(digits, decpt) := shortest_digits 17 1 m e in
         repr_digits digits decpt
     end.

(** The [float] a number with a fraction or an exponent denotes, by its
    [repr]: the integer part (with its sign), the digits of the fraction and
    the exponent, [None] when the text has none. *)
Definition float_of_parts (int_part frac : pystr) (exponent : Z)
  : option pystr :=
  let negative :=
    match int_part with
    | c :: _ => is_char c "-"
    | [] => false
    end in
  let int_digits := if negative then skipn 1 int_part else int_part in
  match digits_value (int_digits ++ frac) 0 false with
  | Some digits =>
      Some (repr_binary64 negative
              (binary64_of_decimal digits
                 (exponent - Z.of_nat (List.length frac))))
  | None => None
  end.

(** The fraction and the exponent that follow an integer part, and what is
    left. *)
Definition match_fraction (s : pystr) : pystr * pystr :=
  if has_fraction s then span_digits (skipn 1 s) else ([], s).

Definition match_exponent (s : pystr) : option Z * pystr :=
  if has_exponent s then
    match skipn 1 s with
    | c :: s' =>
        if is_char c "-" then
          let '(ds, rest) := span_digits s' in
          (option_map Z.opp (digits_value ds 0 false), rest)
        else if is_char c "+" then
          let '(ds, rest) := span_digits s' in
          (digits_value ds 0 false, rest)
        else
          let '(ds, rest) := span_digits (c :: s') in
          (digits_value ds 0 false, rest)
    | [] => (None, s)
    end
  else (None, s).

(** Two dialects of one scanner: [json.loads] as Python has it, and with
    [strict] the grammar of RFC 8259 alone, which has neither the constants
    [NaN], [Infinity] and [-Infinity] nor a limit on the digits of an
    integer. *)
Section Dialect.
Variable strict : bool.

(** A number at the head of [s], when there is one: an [int] unless it has a
    fraction or an exponent. *)
Definition scan_number (s : pystr) : option (scanned value) :=
  match match_integer s with
  | Some (int_part, rest) =>
      let '(frac, rest1) := match_fraction rest in
      let '(exponent, rest2) := match_exponent rest1 in
      match frac, exponent with
      | [], None =>
          let digits :=
            List.length
              match int_part with
              | c :: r => if is_char c "-" then r else int_part
              | [] => []
              end in
          if (negb strict && Nat.ltb int_max_str_digits digits)%bool then
            Some (Aborted (too_many_digits digits))
          else
            match signed_value int_part with
            | Some z => Some (Scanned (VInt z) rest)
            | None => None
            end
      | _, _ =>
          match
            float_of_parts int_part frac
              match exponent with
              | Some x => x
              | None => 0%Z
              end
          with
          | Some shown => Some (Scanned (VFloat shown) rest2)
          | None => None
          end
      end
  | None => None
  end.

Definition scan_literal (s : pystr) : scanned value :=
  match scan_number s with
  | Some r => r
  | None =>
      match after_prefix (u "null") s with
      | Some rest => Scanned VNone rest
      | None =>
      match after_prefix (u "true") s with
      | Some rest => Scanned (VBool true) rest
      | None =>
      match after_prefix (u "false") s with
      | Some rest => Scanned (VBool false) rest
      | None =>
      if strict then expecting_value s else
      match after_prefix (u "NaN") s with
      | Some rest => Scanned (VFloat (u "nan")) rest
      | None =>
      match after_prefix (u "Infinity") s with
      | Some rest => Scanned (VFloat (u "inf")) rest
      | None =>
      match after_prefix (u "-Infinity") s with
      | Some rest => Scanned (VFloat (u "-inf")) rest
      | None => expecting_value s
      end end end end end end
  end.

(** [scan_once] reads one value; [scan_items] the items of an array after
    its bracket, and [scan_pairs] the pairs of an object from the opening
    quote of a key on. *)
Fixpoint scan_once (fuel : nat) (s : pystr) {struct fuel} : scanned value :=
  match fuel with
  | O => Aborted too_deep
  | S fuel' =>
      match s with
      | [] => expecting_value s
      | c :: rest =>
          if N.eqb c dquote then
            match scanstring (List.length rest) rest [] (List.length s) with
            | Scanned str r => Scanned (VStr str) r
            | Failed m l => Failed m l
            | Aborted e => Aborted e
            end
          else if is_char c "{" then
            match skip_ws rest with
            | c' :: r' =>
                if is_char c' "}" then Scanned (VDict []) r'
                else if N.eqb c' dquote then scan_pairs fuel' r' []
                else
                  Failed
                    (u "Expecting property name enclosed in double quotes")
                    (List.length (skip_ws rest))
            | [] =>
                Failed
                  (u "Expecting property name enclosed in double quotes") 0
            end
          else if is_char c "[" then
            match skip_ws rest with
            | c' :: r' =>
                if is_char c' "]" then Scanned (VList []) r'
                else scan_items fuel' (skip_ws rest) []
            | [] => expecting_value []
            end
          else scan_literal s
      end
  end

with scan_items (fuel : nat) (s : pystr) (acc : list value) {struct fuel}
  : scanned value :=
  match fuel with
  | O => Aborted too_deep
  | S fuel' =>
      match scan_once fuel' s with
      | Scanned v rest =>
          match skip_ws rest with
          | c :: r =>
              if is_char c "]" then Scanned (VList (rev (v :: acc))) r
              else if is_char c "," then
                scan_items fuel' (skip_ws r) (v :: acc)
              else
                Failed (u "Expecting ',' delimiter")
                  (List.length (skip_ws rest))
          | [] => Failed (u "Expecting ',' delimiter") 0
          end
      | Failed m l => Failed m l
      | Aborted e => Aborted e
      end
  end

with scan_pairs (fuel : nat) (s : pystr) (acc : list (pystr * value))
  {struct fuel} : scanned value :=
  match fuel with
  | O => Aborted too_deep
  | S fuel' =>
      match scanstring (List.length s) s [] (S (List.length s)) with
      | Scanned key rest =>
          match skip_ws rest with
          | colon :: r =>
              if is_char colon ":" then
                match scan_once fuel' (skip_ws r) with
                | Scanned v rest' =>
                    let acc' := acc ++ [(key, v)] in
                    match skip_ws rest' with
                    | c :: r' =>
                        if is_char c "}" then
                          Scanned (VDict (dict_of_pairs acc')) r'
                        else if is_char c "," then
                          match skip_ws r' with
                          | q :: r'' =>
                              if N.eqb q dquote then scan_pairs fuel' r'' acc'
                              else
                                Failed
                                  (u "Expecting property name enclosed in double quotes")
                                  (List.length (skip_ws r'))
                          | [] =>
                              Failed
                                (u "Expecting property name enclosed in double quotes")
                                0
                          end
                        else
                          Failed (u "Expecting ',' delimiter")
                            (List.length (skip_ws rest'))
                    | [] => Failed (u "Expecting ',' delimiter") 0
                    end
                | Failed m l => Failed m l
                | Aborted e => Aborted e
                end
              else
                Failed (u "Expecting ':' delimiter")
                  (List.length (skip_ws rest))
          | [] => Failed (u "Expecting ':' delimiter") 0
          end
      | Failed m l => Failed m l
      | Aborted e => Aborted e
      end
  end.

(** The text of a [JSONDecodeError]: the message, then the line, the column
    and the offset of the error. *)
Fixpoint since_newline (rev_prefix : pystr) : nat :=
  match rev_prefix with
  | [] => O
  | c :: r => if N.eqb c 10 then O else S (since_newline r)
  end.

Definition str_nat (n : nat) : pystr := str_int (Z.of_nat n).

Definition decode_error (msg : pystr) (text : pystr) (pos : nat) : exn :=
  let before := firstn pos text in
  Exn JSONDecodeError
    (msg ++ u ": line " ++ str_nat (S (count_newlines before))
     ++ u " column " ++ str_nat (S (since_newline (rev before)))
     ++ u " (char " ++ str_nat pos ++ u ")").

Definition loads (text : pystr) : pyresult value :=
  match text with
  | 65279%N :: _ =>
      Raise (decode_error (u "Unexpected UTF-8 BOM (decode using utf-8-sig)")
               text 0)
  | _ =>
      let len := List.length text in
      match scan_once (2 * len + 2) (skip_ws text) with
      | Scanned v rest =>
          match skip_ws rest with
          | [] => Ok v
          | extra =>
              Raise (decode_error (u "Extra data") text
                       (len - List.length extra))
          end
      | Failed msg remaining =>
          Raise (decode_error msg text (len - remaining))
      | Aborted e => Raise e
      end
  end.

End Dialect.

Definition json_loads_ref : pystr -> pyresult value := loads false.

(** A valid JSON text, in the words of RFC 8259: the strict scanner reads
    it to its end. *)
Definition rfc8259_valid (text : pystr) : bool :=
  match loads true text with
  | Ok _ => true
  | Raise _ => false
  end.

#[export] Instance runtime : PyRuntime := {
  int_of_str := int_of_str_ref;
  bytes_decode_utf8 := bytes_decode_utf8_ref;
  json_loads := json_loads_ref;
  repr_str := repr_str_ref;
  can_allocate := fun n => (n <=? 2 ^ 32)%Z
}.
End Reference.

(** ** Vocabulary of the statements *)

(** [d[key]] when the key is there. *)
Fixpoint dict_lookup (entries : list (pystr * value)) (key : pystr)
  : option value :=
  match entries with
  | [] => None
  | (k, v) :: rest => if pystr_eqb k key then Some v else dict_lookup rest key
  end.

Section Failures.
Context {rt : PyRuntime}.

(** The line [do_POST] builds from the parsed object at the time [now]. *)
Definition line_of (now : datetime) (entries : list (pystr * value))
  : pystr :=
  log_line (isoformat now)
    (py_format (dict_get entries (u "level") (VStr (u "LOG"))))
    (py_format (dict_get entries (u "message") (VStr (u "")))).

(** What can fail on the body that was read, in the order of the steps:
    [ingest_failure body w e after] says that the step raises [e] and that
    [debug.log] is [after] then. *)
Inductive ingest_failure (body : pybytes) (w : World)
  : exn -> option pystr -> Prop :=
| Undecodable e :
    bytes_decode_utf8 body = Raise e ->
    ingest_failure body w e (debug_log w)
| Malformed text e :
    bytes_decode_utf8 body = Ok text ->
    json_loads text = Raise e ->
    ingest_failure body w e (debug_log w)
| NotAnObject text v e :
    bytes_decode_utf8 body = Ok text ->
    json_loads text = Ok v ->
    value_get v (u "level") (VStr (u "LOG")) = Raise e ->
    ingest_failure body w e (debug_log w)
| WriteError text entries e after :
    bytes_decode_utf8 body = Ok text ->
    json_loads text = Ok (VDict entries) ->
    log_fault w (line_of (clock w) entries) = Some (e, after) ->
    ingest_failure body w e after.
End Failures.

(** ** Sample requests and worlds *)

Module Samples.
Import Reference.

(** The bytes of an ASCII text in which every apostrophe stands for a double
    quote, to write JSON down. *)
Definition json_bytes (s : string) : pybytes :=
  map (fun x => if Byte.eqb x x27 then bquote else x) (b s).

(** A [POST] of [body] to [target], its length declared. *)
Definition post (target : string) (body : pybytes) : Handler :=
  {| command := u "POST";
     path := u target;
     headers :=
       [(u "Host", u "localhost:8000");
        (u "Content-Type", u "application/json");
        (u "Content-Length", str_nat (List.length body))];
     rfile := Readable body |}.

Definition boom : Handler :=
  post "/api/log" (json_bytes "{'level':'ERROR','message':'boom'}").


Definition only_message : Handler :=
  post "/api/log" (json_bytes "{'message':'boom'}").

Definition truncated : Handler :=
  post "/api/log" (json_bytes "{'level':'ERROR','mess").

Definition an_array : Handler :=
  post "/api/log" (json_bytes "['ERROR','boom']").

Definition elsewhere : Handler :=
  post "/api/logs" (json_bytes "{'level':'ERROR','message':'boom'}").

(** The same request as [boom] without its [Content-Length] header, and
    with one that is not a number. *)
Definition no_length : Handler :=
  {| command := u "POST";
     path := u "/api/log";
     headers := [(u "Host", u "localhost:8000")];
     rfile := Readable (json_bytes "{'level':'ERROR','message':'boom'}") |}.

Definition bad_length : Handler :=
  {| command := u "POST";
     path := u "/api/log";
     headers := [(u "content-length", u "many")];
     rfile := Readable (json_bytes "{'level':'ERROR','message':'boom'}") |}.

(** A request whose connection is reset while the body is read. *)
Definition reset : Handler :=
  {| command := u "POST";
     path := u "/api/log";
     headers := [(u "Content-Length", u "34")];
     rfile := Broken (Exn OSError (u "[Errno 104] Connection reset by peer")) |}.

Definition preflight : Handler :=
  {| command := u "OPTIONS";
     path := u "/anything";
     headers := [(u "Origin", u "http://localhost:3000")];
     rfile := Readable [] |}.

Definition noon : datetime :=
  {| year := 2024; month := 1; day := 1;
     hour := 12; minute := 0; second := 0; microsecond := 0 |}.

Definition later : datetime :=
  {| year := 2024; month := 1; day := 1;
     hour := 12; minute := 0; second := 1; microsecond := 250000 |}.

(** A working directory without [debug.log] and a disk that works. *)
Definition fresh : World :=
  {| clock := noon; debug_log := None; log_fault := fun _ => None;
     stdout := []; wire := []; listening := None;
     bind_fault := fun _ => None |}.

(** The same with a [debug.log] that cannot be opened for writing. *)
Definition read_only : World :=
  {| clock := noon; debug_log := Some (u "kept");
     log_fault := fun _ =>
       Some (Exn OSError (u "[Errno 13] Permission denied: 'debug.log'"),
             Some (u "kept"));
     stdout := []; wire := []; listening := None;
     bind_fault := fun _ => None |}.


(** A level that is the constant [NaN], which is not JSON. *)
Definition nan_level : Handler :=
  post "/api/log" (json_bytes "{'level':NaN}").


(** A machine on which another program listens on port 8000. *)
Definition port_taken : World :=
  {| clock := noon; debug_log := None; log_fault := fun _ => None;
     stdout := []; wire := []; listening := None;
     bind_fault := fun address =>
       if (snd address =? 8000)%Z
       then Some (Exn OSError (u "[Errno 98] Address already in use"))
       else None |}.

(** No inherited method is called in the samples. *)
Definition not_called : Handler -> Py unit := fun _ => ret tt.
End Samples.

(** ** The outcomes of a request *)

Section Outcomes.
Context {rt : PyRuntime}.

(** The ways [do_POST] ends, with the world it leaves: the path is another
    one; the length or the body cannot be read; a step of the [try] block
    fails; the line is logged. *)
Inductive post_outcome (self : Handler) (w : World)
  : pyresult unit -> World -> Prop :=
| NotFound :
    path self <> u "/api/log" ->
    post_outcome self w (Ok tt)
      (with_wire (wire w ++ [Status 404; EndHeaders]) w)
| BadLength e :
    path self = u "/api/log" ->
    py_int (headers_getitem (headers self) (u "Content-Length")) = Raise e ->
    post_outcome self w (Raise e) w
| BadRead n e :
    path self = u "/api/log" ->
    py_int (headers_getitem (headers self) (u "Content-Length")) = Ok n ->
    rfile_read (rfile self) n = Raise e ->
    post_outcome self w (Raise e) w
| Refused n body e after :
    path self = u "/api/log" ->
    py_int (headers_getitem (headers self) (u "Content-Length")) = Ok n ->
    rfile_read (rfile self) n = Ok body ->
    ingest_failure body w e after ->
    post_outcome self w (Ok tt)
      {| clock := clock w;
         debug_log := after;
         log_fault := log_fault w;
         stdout := stdout w ++ u "Error logging: " ++ exn_str e ++ [10%N];
         wire := wire w ++ [Status 500; EndHeaders];
         listening := listening w;
         bind_fault := bind_fault w |}
| Logged n body text entries :
    path self = u "/api/log" ->
    py_int (headers_getitem (headers self) (u "Content-Length")) = Ok n ->
    rfile_read (rfile self) n = Ok body ->
    bytes_decode_utf8 body = Ok text ->
    json_loads text = Ok (VDict entries) ->
    log_fault w (line_of (clock w) entries) = None ->
    post_outcome self w (Ok tt)
      {| clock := clock w;
         debug_log :=
           Some (file_text (debug_log w) ++ line_of (clock w) entries);
         log_fault := log_fault w;
         stdout := stdout w ++ line_of (clock w) entries;
         wire := wire w ++
           [Status 200;
            Header (u "Content-type") (u "application/json");
            Header (u "Access-Control-Allow-Origin") (u "*");
            EndHeaders;
            Body status_ok];
         listening := listening w;
         bind_fault := bind_fault w |}.
End Outcomes.

(** The requests this program's own methods answer. *)
Definition own_method (self : Handler) : bool :=
  (pystr_eqb (command self) (u "POST")
   || pystr_eqb (command self) (u "OPTIONS"))%bool.

(** The two lines [run] prints before it serves. *)
Definition banner (port : Z) : pystr :=
  u "Starting development server on port " ++ str_int port ++ u "..."
  ++ [10%N]
  ++ u "Browser logs will be written to debug.log and shown here" ++ [10%N].

Section Alone.
Context {rt : PyRuntime}.
Variable inherited : Handler -> Py unit.

End Alone.

(** ** More sample requests *)

Module Scenarios.
Import Reference Samples.

(** The request [boom] with another header, the length header in small
    letters, and bytes in the stream after the declared length. *)
Definition padded : Handler :=
  {| command := u "POST";
     path := u "/api/log";
     headers :=
       [(u "X-Requested-With", u "fetch"); (u "content-length", u "34")];
     rfile :=
       Readable
         (json_bytes "{'level':'ERROR','message':'boom'}" ++ b "GET / ") |}.

Definition negative_length : Handler :=
  {| command := u "POST";
     path := u "/api/log";
     headers := [(u "Content-Length", u "-5")];
     rfile := Readable (json_bytes "{'level':'ERROR','message':'boom'}") |}.

Definition with_id : Handler :=
  post "/api/log" (json_bytes "{'id':7,'message':'boom','level':'ERROR'}").

Definition typed_fields : Handler :=
  post "/api/log" (json_bytes "{'level':5,'message':true}").

Definition with_query : Handler :=
  post "/api/log?x=1" (json_bytes "{'level':'ERROR','message':'boom'}").

(** A message of two lines, its line end written as the escape [\n]. *)
Definition two_lines : Handler :=
  post "/api/log" (json_bytes "{'level':'ERROR','message':'a\nb'}").

(** A world in which requests have been served already. *)
Definition busy : World :=
  {| clock := noon;
     debug_log := Some (u "[2023-12-31T23:59:59] LOG: earlier" ++ [10%N]);
     log_fault := fun _ => None;
     stdout := u "[2023-12-31T23:59:59] LOG: earlier" ++ [10%N];
     wire := [Status 404; EndHeaders];
     listening := Some (u "", 8000%Z);
     bind_fault := fun _ => None |}.

(** A length that no index of the machine can hold. *)
Definition huge_negative_length : Handler :=
  {| command := u "POST";
     path := u "/api/log";
     headers := [(u "Content-Length", u "-9223372036854775809")];
     rfile := Readable (json_bytes "{'level':'ERROR','message':'boom'}") |}.

Definition morning : list (datetime * Handler) :=
  [(noon, boom); (noon, preflight); (noon, truncated); (later, only_message)].
End Scenarios.

(** * Properties *)

Ltac run_handler :=
  unfold bind, eval, try_except, ret, datetime_now, append_debug_log, print,
    send_response, send_header, end_headers, wfile_write, emit,
    with_wire, with_stdout, with_debug_log;
  cbn [fst snd clock debug_log log_fault stdout wire listening].

Ltac tidy_lists :=
  repeat rewrite <- app_assoc; cbn [app]; rewrite ?app_nil_r.

(** ** Strings and timestamps *)

Lemma pystr_eqb_refl (s : pystr) : pystr_eqb s s = true.
Proof. unfold pystr_eqb. destruct (pystr_eq_dec s s); congruence. Qed.

Lemma pystr_eqb_neq (s t : pystr) : s <> t -> pystr_eqb s t = false.
Proof. unfold pystr_eqb. destruct (pystr_eq_dec s t); congruence. Qed.

Lemma digit_at_range (n k : N) : (48 <= digit_at n k <= 57)%N.
Proof.
  unfold digit_at.
  assert (H : ((n / 10 ^ k) mod 10 < 10)%N) by (apply N.mod_lt; discriminate).
  revert H. generalize ((n / 10 ^ k) mod 10)%N. intros d H. lia.
Qed.


Lemma digit_at_not_newline (n k : N) : N.eqb 10 (digit_at n k) = false.
Proof.
  apply N.eqb_neq. pose proof (digit_at_range n k). lia.
Qed.


Lemma count_newlines_app (s t : pystr) :
  count_newlines (s ++ t) = count_newlines s + count_newlines t.
Proof. unfold count_newlines. now rewrite filter_app, length_app. Qed.

Lemma zero_padded_one_line (width : nat) (n : N) :
  count_newlines (zero_padded width n) = 0.
Proof.
  induction width as [|k IH]; [reflexivity|].
  unfold count_newlines in *. cbn [zero_padded filter].
  now rewrite digit_at_not_newline.
Qed.

Lemma isoformat_one_line (dt : datetime) : count_newlines (isoformat dt) = 0.
Proof.
  unfold isoformat.
  rewrite !count_newlines_app, !zero_padded_one_line.
  destruct (N.eqb (microsecond dt) 0); [reflexivity|].
  now rewrite count_newlines_app, zero_padded_one_line.
Qed.

(** A log line whose level and message have no line end is one line. *)
Lemma log_line_one_line (dt : datetime) (level message : pystr) :
  count_newlines level = 0 -> count_newlines message = 0 ->
  count_newlines (log_line (isoformat dt) level message) = 1.
Proof.
  intros Hl Hm. unfold log_line.
  rewrite !count_newlines_app, isoformat_one_line, Hl, Hm. reflexivity.
Qed.

(** ** Dictionaries *)

Lemma dict_get_lookup entries key default :
  dict_get entries key default =
  match dict_lookup entries key with
  | Some v => v
  | None => default
  end.
Proof.
  induction entries as [|[k v] rest IH]; simpl; [reflexivity|].
  destruct (pystr_eqb k key); [reflexivity|exact IH].
Qed.

(** ** The handlers, step by step *)

Section HandlerFacts.
Context {rt : PyRuntime}.

(** The world after a line was logged and acknowledged. *)
Lemma do_POST_logged (self : Handler) (w : World) n body text entries :
  path self = u "/api/log" ->
  py_int (headers_getitem (headers self) (u "Content-Length")) = Ok n ->
  rfile_read (rfile self) n = Ok body ->
  bytes_decode_utf8 body = Ok text ->
  json_loads text = Ok (VDict entries) ->
  log_fault w (line_of (clock w) entries) = None ->
  do_POST self w =
  (Ok tt,
   {| clock := clock w;
      debug_log :=
        Some (file_text (debug_log w) ++ line_of (clock w) entries);
      log_fault := log_fault w;
      stdout := stdout w ++ line_of (clock w) entries;
      wire := wire w ++
        [Status 200;
         Header (u "Content-type") (u "application/json");
         Header (u "Access-Control-Allow-Origin") (u "*");
         EndHeaders;
         Body status_ok];
      listening := listening w;
      bind_fault := bind_fault w |}).
Proof.
  intros Hpath Hlen Hread Hdec Hjson Hfault.
  unfold do_POST. rewrite Hpath, pystr_eqb_refl.
  run_handler. rewrite Hlen, Hread, Hdec, Hjson.
  cbn [value_get]. fold (line_of (clock w) entries). rewrite Hfault.
  tidy_lists. reflexivity.
Qed.

(** The world after a failure that the [try] block caught. *)
Lemma do_POST_caught (self : Handler) (w : World) n body e after :
  path self = u "/api/log" ->
  py_int (headers_getitem (headers self) (u "Content-Length")) = Ok n ->
  rfile_read (rfile self) n = Ok body ->
  ingest_failure body w e after ->
  do_POST self w =
  (Ok tt,
   {| clock := clock w;
      debug_log := after;
      log_fault := log_fault w;
      stdout := stdout w ++ u "Error logging: " ++ exn_str e ++ [10%N];
      wire := wire w ++ [Status 500; EndHeaders];
      listening := listening w;
      bind_fault := bind_fault w |}).
Proof.
  intros Hpath Hlen Hread Hfail.
  unfold do_POST. rewrite Hpath, pystr_eqb_refl.
  run_handler. rewrite Hlen, Hread.
  destruct Hfail as [e Hdec | text e Hdec Hjson | text v e Hdec Hjson Hget
                    | text entries e after Hdec Hjson Hfault].
  - rewrite Hdec. tidy_lists. reflexivity.
  - rewrite Hdec, Hjson. tidy_lists. reflexivity.
  - rewrite Hdec, Hjson, Hget. tidy_lists. reflexivity.
  - rewrite Hdec, Hjson. cbn [value_get].
    fold (line_of (clock w) entries). rewrite Hfault.
    tidy_lists. reflexivity.
Qed.

(** A failure before the write leaves [debug.log] as it was. *)
Lemma do_POST_unlogged (self : Handler) (w : World) n body e :
  path self = u "/api/log" ->
  py_int (headers_getitem (headers self) (u "Content-Length")) = Ok n ->
  rfile_read (rfile self) n = Ok body ->
  ingest_failure body w e (debug_log w) ->
  exists w',
    do_POST self w = (Ok tt, w')
    /\ wire w' = wire w ++ [Status 500; EndHeaders]
    /\ debug_log w' = debug_log w.
Proof.
  intros Hpath Hlen Hread Hfail. eexists. split.
  - apply (do_POST_caught _ Hpath Hlen Hread Hfail).
  - split; reflexivity.
Qed.

(** An exception raised before the [try] block leaves the handler, and
    nothing has been done. *)
Lemma do_POST_escapes_header (self : Handler) (w : World) e :
  path self = u "/api/log" ->
  py_int (headers_getitem (headers self) (u "Content-Length")) = Raise e ->
  do_POST self w = (Raise e, w).
Proof.
  intros Hpath Hlen. unfold do_POST. rewrite Hpath, pystr_eqb_refl.
  run_handler. now rewrite Hlen.
Qed.

Lemma do_POST_escapes_read (self : Handler) (w : World) n e :
  path self = u "/api/log" ->
  py_int (headers_getitem (headers self) (u "Content-Length")) = Ok n ->
  rfile_read (rfile self) n = Raise e ->
  do_POST self w = (Raise e, w).
Proof.
  intros Hpath Hlen Hread. unfold do_POST. rewrite Hpath, pystr_eqb_refl.
  run_handler. now rewrite Hlen, Hread.
Qed.

Lemma do_POST_elsewhere (self : Handler) (w : World) :
  path self <> u "/api/log" ->
  do_POST self w =
  (Ok tt,
   {| clock := clock w;
      debug_log := debug_log w;
      log_fault := log_fault w;
      stdout := stdout w;
      wire := wire w ++ [Status 404; EndHeaders];
      listening := listening w;
      bind_fault := bind_fault w |}).
Proof.
  intros Hpath. unfold do_POST. rewrite (pystr_eqb_neq Hpath).
  run_handler. tidy_lists. reflexivity.
Qed.
End HandlerFacts.

Lemma no_growth {A} (l : list A) (x : A) (more : list A) :
  l <> l ++ x :: more.
Proof.
  intros H. apply (f_equal (@List.length A)) in H.
  rewrite length_app in H. cbn in H. lia.
Qed.

Section Inversion.
Context {rt : PyRuntime}.

(** Only a value that is not a [dict] lacks [get]. *)
Lemma value_get_cases v key default :
  (exists entries, v = VDict entries)
  \/ (exists e, value_get v key default = Raise e).
Proof. destruct v; cbn; eauto. Qed.

(** A response that starts with status 200 comes from the last steps of the
    [try] block: everything before them succeeded. *)
Lemma do_POST_sent_200 (self : Handler) (w w' : World) r evs :
  do_POST self w = (r, w') ->
  wire w' = wire w ++ Status 200 :: evs ->
  exists n body text entries,
    path self = u "/api/log"
    /\ py_int (headers_getitem (headers self) (u "Content-Length")) = Ok n
    /\ rfile_read (rfile self) n = Ok body
    /\ bytes_decode_utf8 body = Ok text
    /\ json_loads text = Ok (VDict entries)
    /\ log_fault w (line_of (clock w) entries) = None.
Proof.
  intros Hrun Hwire.
  destruct (pystr_eq_dec (path self) (u "/api/log")) as [Hpath|Hpath].
  2:{ rewrite do_POST_elsewhere in Hrun by assumption.
      injection Hrun as _ <-. cbn in Hwire.
      apply app_inv_head in Hwire. discriminate. }
  destruct (py_int (headers_getitem (headers self) (u "Content-Length")))
    as [n|e] eqn:Hlen.
  2:{ rewrite (do_POST_escapes_header _ _ Hpath Hlen) in Hrun.
      injection Hrun as _ <-. now apply no_growth in Hwire. }
  destruct (rfile_read (rfile self) n) as [body|e] eqn:Hread.
  2:{ rewrite (do_POST_escapes_read _ _ Hpath Hlen Hread) in Hrun.
      injection Hrun as _ <-. now apply no_growth in Hwire. }
  assert (Hcaught : forall e after, ingest_failure body w e after -> False).
  { intros e after Hfail.
    rewrite (do_POST_caught _ Hpath Hlen Hread Hfail) in Hrun.
    injection Hrun as _ <-. cbn in Hwire.
    apply app_inv_head in Hwire. discriminate. }
  destruct (bytes_decode_utf8 body) as [text|e] eqn:Hdec.
  2:{ exfalso. eapply Hcaught. eapply Undecodable; eassumption. }
  destruct (json_loads text) as [v|e] eqn:Hjson.
  2:{ exfalso. eapply Hcaught. eapply Malformed; eassumption. }
  destruct (value_get_cases v (u "level") (VStr (u "LOG")))
    as [[entries ->]|[e Hget]].
  2:{ exfalso. eapply Hcaught. eapply NotAnObject; eassumption. }
  destruct (log_fault w (line_of (clock w) entries)) as [[e after]|]
    eqn:Hfault.
  { exfalso. eapply Hcaught. eapply WriteError; eassumption. }
  exists n, body, text, entries. repeat split; assumption.
Qed.
End Inversion.

(** ** The logging endpoint *)

Section Endpoint.
Context {rt : PyRuntime}.


(** C2, as the code has it.  For [POST /api/log], a failure on the body that
    was read (bytes that do not decode, text that does not parse, a value
    without [get], an error writing [debug.log]) is caught by the [try]
    block: the handler returns, having sent status 500 and nothing else.  A
    missing or non-numeric [Content-Length], or a read that fails, raises
    before the [try] block: the exception leaves [do_POST], nothing sent,
    nothing changed.  The serving loop records it and goes on with the
    requests that follow. *)
Theorem ingestion_failures (self : Handler) (w : World) :
  path self = u "/api/log" ->
  (forall n body e after,
      py_int (headers_getitem (headers self) (u "Content-Length")) = Ok n ->
      rfile_read (rfile self) n = Ok body ->
      ingest_failure body w e after ->
      exists w',
        do_POST self w = (Ok tt, w')
        /\ wire w' = wire w ++ [Status 500; EndHeaders])
  /\ (forall e,
      py_int (headers_getitem (headers self) (u "Content-Length")) = Raise e ->
      do_POST self w = (Raise e, w))
  /\ (forall n e,
      py_int (headers_getitem (headers self) (u "Content-Length")) = Ok n ->
      rfile_read (rfile self) n = Raise e ->
      do_POST self w = (Raise e, w))
  /\ (forall inherited arrival rest e,
      command self = u "POST" ->
      do_POST self (with_wire [] (with_clock arrival w))
      = (Raise e, with_wire [] (with_clock arrival w)) ->
      serve_forever inherited ((arrival, self) :: rest) w
      = ({| outcome := Raise e; response := [] |}
           :: fst (serve_forever inherited rest
                     (with_wire [] (with_clock arrival w))),
         snd (serve_forever inherited rest
                (with_wire [] (with_clock arrival w))))).
Proof.
  intros Hpath. repeat split.
  - intros n body e after Hlen Hread Hfail. eexists. split.
    + apply (do_POST_caught _ Hpath Hlen Hread Hfail).
    + reflexivity.
  - intros e Hlen. now apply do_POST_escapes_header.
  - intros n e Hlen Hread. now apply do_POST_escapes_read with n.
  - intros inherited arrival rest e Hcmd Hrun.
    cbn [serve_forever]. unfold handle_one_request.
    rewrite Hcmd, pystr_eqb_refl, Hrun.
    destruct (serve_forever inherited rest _) as [done w2].
    reflexivity.
Qed.


(** C4, as the code has it.  A [POST /api/log] whose body does not decode as
    UTF-8, or decodes to a text that [json.loads] refuses, is answered with
    status 500 and no body; the exception is printed and [debug.log] is as
    it was. *)
Theorem post_malformed_body (self : Handler) (w : World) n body e :
  path self = u "/api/log" ->
  py_int (headers_getitem (headers self) (u "Content-Length")) = Ok n ->
  rfile_read (rfile self) n = Ok body ->
  bytes_decode_utf8 body = Raise e
  \/ (exists text,
         bytes_decode_utf8 body = Ok text /\ json_loads text = Raise e) ->
  exists w',
    do_POST self w = (Ok tt, w')
    /\ wire w' = wire w ++ [Status 500; EndHeaders]
    /\ debug_log w' = debug_log w
    /\ stdout w' = stdout w ++ u "Error logging: " ++ exn_str e ++ [10%N].
Proof.
  intros Hpath Hlen Hread Hbad.
  assert (Hfail : ingest_failure body w e (debug_log w)).
  { destruct Hbad as [Hdec|(text & Hdec & Hjson)].
    - now apply Undecodable.
    - now apply Malformed with text. }
  eexists. split.
  - apply (do_POST_caught _ Hpath Hlen Hread Hfail).
  - repeat split; reflexivity.
Qed.

(** C9.  A [POST /api/log] whose body parses to a value that is not an
    object is answered with status 500 and no body, and [debug.log] is as it
    was. *)
Theorem post_not_an_object (self : Handler) (w : World) n body text v :
  path self = u "/api/log" ->
  py_int (headers_getitem (headers self) (u "Content-Length")) = Ok n ->
  rfile_read (rfile self) n = Ok body ->
  bytes_decode_utf8 body = Ok text ->
  json_loads text = Ok v ->
  (forall entries, v <> VDict entries) ->
  exists w',
    do_POST self w = (Ok tt, w')
    /\ wire w' = wire w ++ [Status 500; EndHeaders]
    /\ debug_log w' = debug_log w.
Proof.
  intros Hpath Hlen Hread Hdec Hjson Hv.
  destruct (value_get_cases v (u "level") (VStr (u "LOG")))
    as [[entries ->]|[e Hget]].
  { now destruct (Hv entries). }
  apply (do_POST_unlogged _ Hpath Hlen Hread (e := e)).
  apply NotAnObject with text v; assumption.
Qed.

(** C6.  A [POST] to any other path is answered with status 404 and no
    body; nothing else happens, and [debug.log] is as it was. *)
Theorem post_elsewhere_404 (self : Handler) (w : World) :
  path self <> u "/api/log" ->
  do_POST self w = (Ok tt, with_wire (wire w ++ [Status 404; EndHeaders]) w)
  /\ debug_log (snd (do_POST self w)) = debug_log w.
Proof.
  intros Hpath. rewrite do_POST_elsewhere by assumption.
  split; reflexivity.
Qed.

(** C5.  Whatever the request, [do_OPTIONS] sends status 200, the three
    CORS headers and no body, and touches nothing else. *)
Theorem options_preflight (self : Handler) (w : World) :
  do_OPTIONS self w =
  (Ok tt,
   with_wire
     (wire w ++
      [Status 200;
       Header (u "Access-Control-Allow-Origin") (u "*");
       Header (u "Access-Control-Allow-Methods") (u "POST, OPTIONS");
       Header (u "Access-Control-Allow-Headers") (u "Content-Type");
       EndHeaders]) w).
Proof.
  unfold do_OPTIONS. run_handler. tidy_lists. reflexivity.
Qed.

(** What a request is read as does not depend on the world. *)
Lemma same_request (self : Handler) n n' body body' text text'
  entries entries' :
  py_int (headers_getitem (headers self) (u "Content-Length")) = Ok n ->
  rfile_read (rfile self) n = Ok body ->
  bytes_decode_utf8 body = Ok text ->
  json_loads text = Ok (VDict entries) ->
  py_int (headers_getitem (headers self) (u "Content-Length")) = Ok n' ->
  rfile_read (rfile self) n' = Ok body' ->
  bytes_decode_utf8 body' = Ok text' ->
  json_loads text' = Ok (VDict entries') ->
  entries' = entries.
Proof.
  intros Hn Hb Ht He Hn' Hb' Ht' He'.
  assert (n' = n) as -> by congruence.
  assert (body' = body) as -> by congruence.
  assert (text' = text) as -> by congruence.
  congruence.
Qed.

(** C7, as the code has it.  A [POST /api/log] answered with status 200 has
    appended to [debug.log] the text [[<timestamp>] <level>: <message>\n]
    and left what the file held in place, [level] and [message] being what
    the object of the body gives for these keys.  The text has one line end
    more than [level] and [message] together: it is one line when they have
    none.  The same request handled once more, at whatever time, appends
    such a text again, with the same level and message. *)
Theorem post_appends_each_time (self : Handler) (w w1 : World) r1 evs1 :
  do_POST self w = (r1, w1) ->
  wire w1 = wire w ++ Status 200 :: evs1 ->
  exists n body text entries level message,
    py_int (headers_getitem (headers self) (u "Content-Length")) = Ok n
    /\ rfile_read (rfile self) n = Ok body
    /\ bytes_decode_utf8 body = Ok text
    /\ json_loads text = Ok (VDict entries)
    /\ level = py_format (dict_get entries (u "level") (VStr (u "LOG")))
    /\ message = py_format (dict_get entries (u "message") (VStr (u "")))
    /\ (forall L, dict_lookup entries (u "level") = Some (VStr L) ->
        level = L)
    /\ (forall M, dict_lookup entries (u "message") = Some (VStr M) ->
        message = M)
    /\ debug_log w1 =
         Some (file_text (debug_log w)
               ++ u "[" ++ isoformat (clock w) ++ u "] " ++ level ++ u ": "
               ++ message ++ [10%N])
    /\ count_newlines
         (u "[" ++ isoformat (clock w) ++ u "] " ++ level ++ u ": "
          ++ message ++ [10%N])
       = 1 + count_newlines level + count_newlines message
    /\ forall (w2 w3 : World) r2 evs2,
         debug_log w2 = debug_log w1 ->
         do_POST self w2 = (r2, w3) ->
         wire w3 = wire w2 ++ Status 200 :: evs2 ->
         debug_log w3 =
           Some (file_text (debug_log w)
                 ++ u "[" ++ isoformat (clock w) ++ u "] " ++ level ++ u ": "
                 ++ message ++ [10%N]
                 ++ u "[" ++ isoformat (clock w2) ++ u "] " ++ level
                 ++ u ": " ++ message ++ [10%N]).
Proof.
  intros Hrun Hwire.
  destruct (@do_POST_sent_200 _ _ _ _ _ _ Hrun Hwire)
    as (n & body & text & entries & Hpath & Hlen & Hread & Hdec & Hjson
        & Hfault).
  rewrite (do_POST_logged _ _ Hpath Hlen Hread Hdec Hjson Hfault) in Hrun.
  injection Hrun as _ <-.
  exists n, body, text, entries,
    (py_format (dict_get entries (u "level") (VStr (u "LOG")))),
    (py_format (dict_get entries (u "message") (VStr (u "")))).
  do 6 (split; [first [assumption | reflexivity]|]).
  split; [intros L HL; now rewrite dict_get_lookup, HL|].
  split; [intros M HM; now rewrite dict_get_lookup, HM|].
  split; [reflexivity|].
  split.
  { rewrite !count_newlines_app, isoformat_one_line. cbn. lia. }
  intros w2 w3 r2 evs2 Hsame Hrun2 Hwire2.
  destruct (@do_POST_sent_200 _ _ _ _ _ _ Hrun2 Hwire2)
    as (n' & body' & text' & entries' & _ & Hlen' & Hread' & Hdec' & Hjson'
        & Hfault').
  rewrite (do_POST_logged _ _ Hpath Hlen' Hread' Hdec' Hjson' Hfault')
    in Hrun2.
  injection Hrun2 as _ <-.
  rewrite (same_request _ Hlen Hread Hdec Hjson Hlen' Hread' Hdec' Hjson').
  cbn [debug_log]. rewrite Hsame. cbn [debug_log file_text].
  unfold line_of, log_line. repeat rewrite <- app_assoc. reflexivity.
Qed.

(** C8.  A [POST /api/log] answered with status 200 has written to standard
    output the very line it appended to [debug.log], which ends with its
    line end, and nothing after it. *)
Theorem logged_line_echoed (self : Handler) (w w' : World) r evs :
  do_POST self w = (r, w') ->
  wire w' = wire w ++ Status 200 :: evs ->
  exists text,
    debug_log w' = Some (file_text (debug_log w) ++ text ++ [10%N])
    /\ stdout w' = stdout w ++ text ++ [10%N].
Proof.
  intros Hrun Hwire.
  destruct (@do_POST_sent_200 _ _ _ _ _ _ Hrun Hwire)
    as (n & body & text & entries & Hpath & Hlen & Hread & Hdec & Hjson
        & Hfault).
  rewrite (do_POST_logged _ _ Hpath Hlen Hread Hdec Hjson Hfault) in Hrun.
  injection Hrun as _ <-.
  exists (u "[" ++ isoformat (clock w) ++ u "] "
          ++ py_format (dict_get entries (u "level") (VStr (u "LOG")))
          ++ u ": "
          ++ py_format (dict_get entries (u "message") (VStr (u "")))).
  cbn [debug_log stdout]. unfold line_of, log_line.
  repeat rewrite <- app_assoc. split; reflexivity.
Qed.
End Endpoint.

(** ** The dispatch *)

Section Dispatch.
Context {rt : PyRuntime}.
Variable inherited : Handler -> Py unit.

Lemma post_dispatch (self : Handler) :
  command self = u "POST" ->
  handle_one_request inherited self = do_POST self.
Proof.
  intros H. unfold handle_one_request. now rewrite H, pystr_eqb_refl.
Qed.

Lemma options_dispatch (self : Handler) :
  command self = u "OPTIONS" ->
  handle_one_request inherited self = do_OPTIONS self.
Proof.
  intros H. unfold handle_one_request. rewrite H, pystr_eqb_refl.
  reflexivity.
Qed.

(** The loop serves every request that arrives, whatever the earlier ones
    did. *)
Lemma serve_forever_length (incoming : list (datetime * Handler))
  (w : World) :
  List.length (fst (serve_forever inherited incoming w))
  = List.length incoming.
Proof.
  revert w. induction incoming as [|[arrival self] rest IH]; intros w.
  - reflexivity.
  - cbn [serve_forever].
    destruct (handle_one_request inherited self _) as [r w1].
    specialize (IH w1).
    destruct (serve_forever inherited rest w1) as [done w2].
    cbn in *. now rewrite IH.
Qed.
End Dispatch.

(** ** The command line *)

Section CommandLine.
Context {rt : PyRuntime}.
Variable inherited : Handler -> Py unit.

(** [HTTPServer] on an address that can be bound, and [run] then: the
    server listens, the two lines are printed and the requests are served. *)
Lemma HTTPServer_binds (address : pystr * Z) (w : World) :
  (0 <= snd address <= 65535)%Z ->
  bind_fault w address = None ->
  HTTPServer address w = (Ok tt, with_listening (Some address) w).
Proof.
  intros [Hlo Hhi] Hfault. unfold HTTPServer.
  destruct (Z.ltb_spec (snd address) 0) as [H|_]; [lia|].
  destruct (Z.ltb_spec 65535 (snd address)) as [H|_]; [lia|].
  cbn [orb]. now rewrite Hfault.
Qed.

Lemma run_serves (port : Z) (incoming : list (datetime * Handler))
  (w : World) :
  (0 <= port <= 65535)%Z ->
  bind_fault w (u "", port) = None ->
  exists w0,
    listening w0 = Some (u "", port)
    /\ stdout w0 = stdout w ++ banner port
    /\ run inherited port incoming w
       = (Ok (fst (serve_forever inherited incoming w0)),
          snd (serve_forever inherited incoming w0)).
Proof.
  intros Hport Hfault. unfold run, bind at 1.
  rewrite HTTPServer_binds by assumption.
  run_handler. unfold with_listening.
  cbn [fst snd clock debug_log log_fault stdout wire listening].
  match goal with
  | |- context [serve_forever inherited incoming ?x] => exists x
  end.
  split; [reflexivity|]. split.
  { cbn [stdout]. unfold banner. now repeat rewrite <- app_assoc. }
  destruct (serve_forever inherited incoming _); reflexivity.
Qed.

(** When the server cannot be made, [run] ends there. *)
Lemma run_refused (port : Z) (incoming : list (datetime * Handler))
  (w : World) e :
  HTTPServer (u "", port) w = (Raise e, w) ->
  run inherited port incoming w = (Raise e, w).
Proof. intros H. unfold run, bind at 1. now rewrite H. Qed.

Lemma HTTPServer_out_of_range (host : pystr) (port : Z) (w : World) :
  (port < 0 \/ 65535 < port)%Z ->
  HTTPServer (host, port) w
  = (Raise (Exn OverflowError (u "bind(): port must be 0-65535.")), w).
Proof.
  intros Hport. unfold HTTPServer. cbn [snd].
  destruct (Z.ltb_spec port 0) as [H|H]; [reflexivity|].
  destruct (Z.ltb_spec 65535 port) as [H'|H']; [reflexivity|lia].
Qed.

Lemma HTTPServer_not_granted (address : pystr * Z) (w : World) e :
  (0 <= snd address <= 65535)%Z ->
  bind_fault w address = Some e ->
  HTTPServer address w = (Raise e, w).
Proof.
  intros [Hlo Hhi] Hfault. unfold HTTPServer.
  destruct (Z.ltb_spec (snd address) 0) as [H|_]; [lia|].
  destruct (Z.ltb_spec 65535 (snd address)) as [H|_]; [lia|].
  cbn [orb]. now rewrite Hfault.
Qed.

(** C10, as the code has it.  The command line has one optional argument,
    the port: without it [run] is called with 8000; with it, with the
    integer the argument reads as, whatever arguments follow.  [run] makes
    the server listen on that port, prints its two lines and serves, when
    the port is between 0 and 65535 and the system grants it.  For another
    port [HTTPServer] raises [OverflowError], and for a port that is not
    granted the error of the system: [run] ends there, nothing printed, no
    server listening. *)
Theorem cli_port (argv : list pystr) (incoming : list (datetime * Handler))
  (w : World) :
  (List.length argv <= 1 ->
   main inherited argv incoming w = run inherited 8000 incoming w)
  /\ (forall prog arg more port,
         argv = prog :: arg :: more ->
         int_of_str arg = Ok port ->
         main inherited argv incoming w = run inherited port incoming w)
  /\ (forall port,
         (0 <= port <= 65535)%Z ->
         bind_fault w (u "", port) = None ->
         exists w0,
           listening w0 = Some (u "", port)
           /\ stdout w0
              = stdout w
                ++ u "Starting development server on port " ++ str_int port
                ++ u "..." ++ [10%N]
                ++ u "Browser logs will be written to debug.log and shown here"
                ++ [10%N]
           /\ run inherited port incoming w
              = (Ok (fst (serve_forever inherited incoming w0)),
                 snd (serve_forever inherited incoming w0)))
  /\ (forall port,
         (port < 0 \/ 65535 < port)%Z ->
         run inherited port incoming w
         = (Raise (Exn OverflowError (u "bind(): port must be 0-65535.")),
            w))
  /\ (forall port e,
         (0 <= port <= 65535)%Z ->
         bind_fault w (u "", port) = Some e ->
         run inherited port incoming w = (Raise e, w)).
Proof.
  split; [|split; [|split; [|split]]].
  - intros Hlen. unfold main.
    destruct (Nat.ltb_spec 1 (List.length argv)) as [H|H]; [lia|].
    reflexivity.
  - intros prog arg more port -> Hint. unfold main.
    cbn [List.length Nat.ltb Nat.leb nth]. unfold bind, eval.
    now rewrite Hint.
  - intros port Hport Hfault. apply run_serves; assumption.
  - intros port Hport. apply run_refused.
    now apply HTTPServer_out_of_range.
  - intros port e Hport Hfault. apply run_refused.
    now apply HTTPServer_not_granted.
Qed.
End CommandLine.

(** ** Every outcome of [do_POST] *)

Section AllOutcomes.
Context {rt : PyRuntime}.

(** [do_POST] ends in one of the five ways of [post_outcome]. *)
Lemma do_POST_outcome (self : Handler) (w : World) :
  post_outcome self w (fst (do_POST self w)) (snd (do_POST self w)).
Proof.
  destruct (pystr_eq_dec (path self) (u "/api/log")) as [Hpath|Hpath].
  2:{ rewrite do_POST_elsewhere by assumption. now apply NotFound. }
  destruct (py_int (headers_getitem (headers self) (u "Content-Length")))
    as [n|e] eqn:Hlen.
  2:{ rewrite (do_POST_escapes_header _ _ Hpath Hlen).
      now apply BadLength. }
  destruct (rfile_read (rfile self) n) as [body|e] eqn:Hread.
  2:{ rewrite (do_POST_escapes_read _ _ Hpath Hlen Hread).
      now apply BadRead with n. }
  assert (Hcaught : forall e after, ingest_failure body w e after ->
            post_outcome self w (fst (do_POST self w))
              (snd (do_POST self w))).
  { intros e after Hfail.
    rewrite (do_POST_caught _ Hpath Hlen Hread Hfail).
    now apply Refused with n body. }
  destruct (bytes_decode_utf8 body) as [text|e] eqn:Hdec.
  2:{ eapply Hcaught. eapply Undecodable; eassumption. }
  destruct (json_loads text) as [v|e] eqn:Hjson.
  2:{ eapply Hcaught. eapply Malformed; eassumption. }
  destruct (value_get_cases v (u "level") (VStr (u "LOG")))
    as [[entries ->]|[e Hget]].
  2:{ eapply Hcaught. eapply NotAnObject; eassumption. }
  destruct (log_fault w (line_of (clock w) entries)) as [[e after]|]
    eqn:Hfault.
  { eapply Hcaught. eapply WriteError; eassumption. }
  rewrite (do_POST_logged _ _ Hpath Hlen Hread Hdec Hjson Hfault).
  now apply Logged with n body text.
Qed.

Lemma do_POST_outcome_of (self : Handler) (w w' : World) r :
  do_POST self w = (r, w') -> post_outcome self w r w'.
Proof.
  intros H. pose proof (do_POST_outcome self w) as Hout.
  now rewrite H in Hout.
Qed.

(** X1.  Whatever the request, [do_POST] sends no status but 200, 404 and
    500, no header but [Content-type: application/json] and
    [Access-Control-Allow-Origin: *] and no body but [{"status":"ok"}], and
    it sends a body only in an answer that starts with status 200. *)
Theorem do_POST_sends_only (self : Handler) (w w' : World) r :
  do_POST self w = (r, w') ->
  exists sent,
    wire w' = wire w ++ sent
    /\ Forall
         (fun ev =>
            match ev with
            | Status code => code = 200%Z \/ code = 404%Z \/ code = 500%Z
            | Header name value =>
                (name = u "Content-type" /\ value = u "application/json")
                \/ (name = u "Access-Control-Allow-Origin" /\ value = u "*")
            | EndHeaders => True
            | Body data => data = status_ok
            end) sent
    /\ (forall data, In (Body data) sent ->
        exists more, sent = Status 200 :: more).
Proof.
  intros Hrun. destruct (do_POST_outcome_of _ _ Hrun).
  - exists [Status 404; EndHeaders]. split; [reflexivity|]. split.
    + repeat (apply Forall_cons; [cbn; auto|]). apply Forall_nil.
    + intros data [Hin|[Hin|[]]]; discriminate.
  - exists []. split; [now rewrite app_nil_r|]. split.
    + constructor.
    + intros data [].
  - exists []. split; [now rewrite app_nil_r|]. split.
    + constructor.
    + intros data [].
  - exists [Status 500; EndHeaders]. split; [reflexivity|]. split.
    + repeat (apply Forall_cons; [cbn; auto|]). apply Forall_nil.
    + intros data [Hin|[Hin|[]]]; discriminate.
  - eexists. split; [reflexivity|]. split.
    + repeat (apply Forall_cons; [cbn; auto|]). apply Forall_nil.
    + intros data _. eexists. reflexivity.
Qed.


(** What is read depends on the bytes up to the length asked for. *)
Lemma rfile_read_prefix (data1 data2 : pybytes) (n : Z) :
  (0 <= n)%Z ->
  firstn (Z.to_nat n) data1 = firstn (Z.to_nat n) data2 ->
  rfile_read (Readable data1) n = rfile_read (Readable data2) n.
Proof.
  intros Hn Hsame. unfold rfile_read.
  destruct ((n <? - 2 ^ 63) || (2 ^ 63 <=? n))%bool%Z; [reflexivity|].
  destruct (Z.ltb_spec n (-1)) as [H|_]; [reflexivity|].
  destruct (Z.eqb_spec n (-1)) as [H|_]; [lia|].
  now rewrite Hsame.
Qed.

(** X3.  Of a request, [do_POST] uses the path, the [Content-Length] header
    and as many bytes of the body as that header says: two requests that
    agree on these are handled alike, whatever their other headers and
    whatever follows in the stream. *)
Theorem only_length_and_body_matter (self1 self2 : Handler) (w : World) n
  data1 data2 :
  path self1 = path self2 ->
  headers_getitem (headers self1) (u "Content-Length")
  = headers_getitem (headers self2) (u "Content-Length") ->
  py_int (headers_getitem (headers self1) (u "Content-Length")) = Ok n ->
  (0 <= n)%Z ->
  rfile self1 = Readable data1 ->
  rfile self2 = Readable data2 ->
  firstn (Z.to_nat n) data1 = firstn (Z.to_nat n) data2 ->
  do_POST self1 w = do_POST self2 w.
Proof.
  intros Hpath Hhead Hlen Hn Hr1 Hr2 Hsame.
  unfold do_POST. rewrite <- Hpath, <- Hhead.
  destruct (pystr_eqb (path self1) (u "/api/log")); [|reflexivity].
  run_handler. rewrite Hlen, Hr1, Hr2.
  now rewrite (rfile_read_prefix data1 data2 Hn Hsame).
Qed.

(** X4.  A [Content-Length] below -1 is not refused by the handler: the read
    raises before the [try] block, [ValueError] for a length down to -2^63
    and [OverflowError] for one below, which fits no index; the exception
    leaves [do_POST] and nothing is answered. *)
Theorem negative_length_escapes (self : Handler) (w : World) n data :
  path self = u "/api/log" ->
  py_int (headers_getitem (headers self) (u "Content-Length")) = Ok n ->
  (n < -1)%Z ->
  rfile self = Readable data ->
  do_POST self w
  = (Raise
       (if (n <? - 2 ^ 63)%Z
        then Exn OverflowError
               (u "cannot fit 'int' into an index-sized integer")
        else Exn ValueError (u "read length must be non-negative or -1")),
     w).
Proof.
  intros Hpath Hlen Hn Hr.
  apply do_POST_escapes_read with n; [assumption..|].
  rewrite Hr. unfold rfile_read.
  destruct (Z.ltb_spec n (- 2 ^ 63)) as [Hlow|Hlow]; [reflexivity|].
  destruct (Z.leb_spec (2 ^ 63) n) as [Hhigh|_]; [lia|].
  cbn [orb].
  destruct (Z.ltb_spec n (-1)) as [_|H]; [reflexivity|lia].
Qed.

(** The line depends on the object through its keys [level] and [message]
    only. *)
Lemma line_of_lookup (now : datetime) entries1 entries2 :
  dict_lookup entries1 (u "level") = dict_lookup entries2 (u "level") ->
  dict_lookup entries1 (u "message") = dict_lookup entries2 (u "message") ->
  line_of now entries1 = line_of now entries2.
Proof.
  intros Hl Hm. unfold line_of. now rewrite !dict_get_lookup, Hl, Hm.
Qed.

(** X5.  Of the object in the body, only the keys [level] and [message]
    count: two requests whose objects agree on these two keys are handled
    alike, whatever other keys they carry. *)
Theorem other_keys_are_ignored (self1 self2 : Handler) (w : World)
  n1 n2 body1 body2 text1 text2 entries1 entries2 :
  path self1 = u "/api/log" ->
  py_int (headers_getitem (headers self1) (u "Content-Length")) = Ok n1 ->
  rfile_read (rfile self1) n1 = Ok body1 ->
  bytes_decode_utf8 body1 = Ok text1 ->
  json_loads text1 = Ok (VDict entries1) ->
  path self2 = u "/api/log" ->
  py_int (headers_getitem (headers self2) (u "Content-Length")) = Ok n2 ->
  rfile_read (rfile self2) n2 = Ok body2 ->
  bytes_decode_utf8 body2 = Ok text2 ->
  json_loads text2 = Ok (VDict entries2) ->
  dict_lookup entries1 (u "level") = dict_lookup entries2 (u "level") ->
  dict_lookup entries1 (u "message") = dict_lookup entries2 (u "message") ->
  do_POST self1 w = do_POST self2 w.
Proof.
  intros Hp1 Hl1 Hr1 Hd1 Hj1 Hp2 Hl2 Hr2 Hd2 Hj2 Hlevel Hmessage.
  pose proof (line_of_lookup (clock w) _ _ Hlevel Hmessage) as Hline.
  destruct (log_fault w (line_of (clock w) entries1)) as [[e after]|]
    eqn:Hfault.
  - assert (Hf1 : ingest_failure body1 w e after)
      by (eapply WriteError; eassumption).
    rewrite Hline in Hfault.
    assert (Hf2 : ingest_failure body2 w e after)
      by (eapply WriteError; eassumption).
    rewrite (do_POST_caught _ Hp1 Hl1 Hr1 Hf1).
    rewrite (do_POST_caught _ Hp2 Hl2 Hr2 Hf2).
    reflexivity.
  - rewrite (do_POST_logged _ _ Hp1 Hl1 Hr1 Hd1 Hj1 Hfault).
    rewrite Hline in Hfault.
    rewrite (do_POST_logged _ _ Hp2 Hl2 Hr2 Hd2 Hj2 Hfault).
    now rewrite Hline.
Qed.


(** A failure of a step happens in every world with the same clock and the
    same disk. *)
Lemma ingest_failure_elsewhere (body : pybytes) (w1 w2 : World) e after :
  clock w1 = clock w2 ->
  log_fault w1 = log_fault w2 ->
  ingest_failure body w1 e after ->
  exists after', ingest_failure body w2 e after'.
Proof.
  intros Hclock Hdisk Hfail.
  destruct Hfail as [e Hdec | text e Hdec Hjson | text v e Hdec Hjson Hget
                    | text entries e after Hdec Hjson Hfault].
  - eexists. eapply Undecodable; eassumption.
  - eexists. eapply Malformed; eassumption.
  - eexists. eapply NotAnObject; eassumption.
  - exists after. eapply WriteError; try eassumption.
    now rewrite <- Hclock, <- Hdisk.
Qed.

(** X7.  The answer to a request does not depend on what was served before:
    in two worlds with the same clock and the same disk, [do_POST] ends the
    same way, sends the same answer and prints the same text, whatever
    [debug.log], standard output and the connection hold. *)
Theorem answer_is_stateless (self : Handler) (w1 w2 : World) :
  clock w1 = clock w2 ->
  log_fault w1 = log_fault w2 ->
  fst (do_POST self w1) = fst (do_POST self w2)
  /\ exists reply printed,
       wire (snd (do_POST self w1)) = wire w1 ++ reply
       /\ wire (snd (do_POST self w2)) = wire w2 ++ reply
       /\ stdout (snd (do_POST self w1)) = stdout w1 ++ printed
       /\ stdout (snd (do_POST self w2)) = stdout w2 ++ printed.
Proof.
  intros Hclock Hdisk.
  pose proof (do_POST_outcome self w1) as H1.
  destruct (do_POST self w1) as [r1 w1'] eqn:E1. cbn [fst snd] in *.
  destruct H1 as [Hpath | e Hpath Hlen | n e Hpath Hlen Hread
                 | n body e after Hpath Hlen Hread Hfail
                 | n body text entries Hpath Hlen Hread Hdec Hjson Hfault].
  - rewrite do_POST_elsewhere by assumption.
    split; [reflexivity|]. exists [Status 404; EndHeaders], [].
    cbn. now rewrite !app_nil_r.
  - rewrite (do_POST_escapes_header _ w2 Hpath Hlen).
    split; [reflexivity|]. exists [], []. cbn. now rewrite !app_nil_r.
  - rewrite (do_POST_escapes_read _ w2 Hpath Hlen Hread).
    split; [reflexivity|]. exists [], []. cbn. now rewrite !app_nil_r.
  - destruct (ingest_failure_elsewhere w2 Hclock Hdisk Hfail)
      as [after' Hfail'].
    rewrite (do_POST_caught _ Hpath Hlen Hread Hfail').
    split; [reflexivity|].
    exists [Status 500; EndHeaders],
           (u "Error logging: " ++ exn_str e ++ [10%N]).
    cbn. repeat split; reflexivity.
  - rewrite Hclock, Hdisk in Hfault.
    rewrite (do_POST_logged _ _ Hpath Hlen Hread Hdec Hjson Hfault).
    split; [reflexivity|]. eexists. exists (line_of (clock w2) entries).
    cbn. rewrite Hclock. repeat split; reflexivity.
Qed.

(** X8.  The path is compared as a whole: anything after [/api/log], a query
    string or a slash, makes the request a 404, and the body is not looked
    at. *)
Theorem path_must_match_exactly (self : Handler) (w : World) suffix :
  suffix <> [] ->
  path self = u "/api/log" ++ suffix ->
  do_POST self w = (Ok tt, with_wire (wire w ++ [Status 404; EndHeaders]) w).
Proof.
  intros Hsuffix Hpath. rewrite do_POST_elsewhere; [reflexivity|].
  rewrite Hpath. intros H.
  rewrite <- (app_nil_r (u "/api/log")) in H at 2.
  apply app_inv_head in H. contradiction.
Qed.

End AllOutcomes.

(** ** The serving loop *)

Section ServingLoop.
Context {rt : PyRuntime}.
Variable inherited : Handler -> Py unit.

Lemma do_OPTIONS_sends (self : Handler) (w : World) :
  do_OPTIONS self w =
  (Ok tt,
   with_wire
     (wire w ++
      [Status 200;
       Header (u "Access-Control-Allow-Origin") (u "*");
       Header (u "Access-Control-Allow-Methods") (u "POST, OPTIONS");
       Header (u "Access-Control-Allow-Headers") (u "Content-Type");
       EndHeaders]) w).
Proof. unfold do_OPTIONS. run_handler. tidy_lists. reflexivity. Qed.

Lemma own_request_cases (self : Handler) :
  own_method self = true ->
  (command self = u "POST"
   /\ handle_one_request inherited self = do_POST self)
  \/ (command self <> u "POST"
      /\ handle_one_request inherited self = do_OPTIONS self).
Proof.
  unfold own_method, handle_one_request, pystr_eqb. intros H.
  destruct (pystr_eq_dec (command self) (u "POST")) as [Hp|Hp].
  - left. now split.
  - right. split; [assumption|].
    destruct (pystr_eq_dec (command self) (u "OPTIONS")); [reflexivity|].
    discriminate.
Qed.


(** What one of the program's requests does to the state that lasts. *)
Lemma own_request_frame (self : Handler) (w : World) :
  own_method self = true ->
  log_fault (snd (handle_one_request inherited self w)) = log_fault w
  /\ listening (snd (handle_one_request inherited self w)) = listening w
  /\ exists printed,
       stdout (snd (handle_one_request inherited self w))
       = stdout w ++ printed.
Proof.
  intros Hown.
  destruct (own_request_cases self Hown) as [[_ ->]|[_ ->]].
  - destruct (do_POST_outcome self w); cbn.
    + repeat split. exists []. now rewrite app_nil_r.
    + repeat split. exists []. now rewrite app_nil_r.
    + repeat split. exists []. now rewrite app_nil_r.
    + repeat split. eexists. reflexivity.
    + repeat split. eexists. reflexivity.
  - rewrite do_OPTIONS_sends. cbn. repeat split.
    exists []. now rewrite app_nil_r.
Qed.



(** What a sequence of the program's requests does to the state that
    lasts. *)
Lemma serve_forever_frame (incoming : list (datetime * Handler))
  (w : World) :
  Forall (fun req => own_method (snd req) = true) incoming ->
  listening (snd (serve_forever inherited incoming w)) = listening w
  /\ exists printed,
       stdout (snd (serve_forever inherited incoming w))
       = stdout w ++ printed.
Proof.
  intros Hown. revert w.
  induction Hown as [|[arrival self] rest Hself _ IH]; intros w.
  - cbn. split; [reflexivity|]. exists []. now rewrite app_nil_r.
  - cbn [serve_forever snd] in *.
    set (start := with_wire [] (with_clock arrival w)).
    pose proof (own_request_frame self start Hself)
      as (_ & Hlisten & printed & Hout).
    destruct (handle_one_request inherited self start) as [r w1].
    cbn [fst snd] in *.
    destruct (IH w1) as (Hlisten' & printed' & Hout').
    destruct (serve_forever inherited rest w1) as [done w2].
    cbn [fst snd] in *. split.
    + now rewrite Hlisten', Hlisten.
    + exists (printed ++ printed').
      rewrite Hout', Hout. subst start. cbn. now rewrite app_assoc.
Qed.

(** X12.  On a port between 0 and 65535 that the system grants, [run] prints
    its two lines before anything a request makes it print, and after any
    [POST] and [OPTIONS] requests the server still listens on the port it
    was given. *)
Theorem banner_comes_first (port : Z) (incoming : list (datetime * Handler))
  (w : World) :
  (0 <= port <= 65535)%Z ->
  bind_fault w (u "", port) = None ->
  Forall (fun req => own_method (snd req) = true) incoming ->
  listening (snd (run inherited port incoming w)) = Some (u "", port)
  /\ exists printed,
       stdout (snd (run inherited port incoming w))
       = stdout w
         ++ u "Starting development server on port " ++ str_int port
         ++ u "..." ++ [10%N]
         ++ u "Browser logs will be written to debug.log and shown here"
         ++ [10%N] ++ printed.
Proof.
  intros Hport Hfault Hown.
  destruct (@run_serves _ inherited port incoming w Hport Hfault)
    as (w0 & Hlisten0 & Hout0 & ->).
  destruct (serve_forever_frame w0 Hown) as (Hlisten & printed & Hout).
  cbn [snd]. split; [now rewrite Hlisten|].
  exists printed. rewrite Hout, Hout0. unfold banner.
  repeat rewrite <- app_assoc. reflexivity.
Qed.

(** X13.  A preflight leaves no trace: serving an [OPTIONS] request before
    other requests gives these the same answers, and leaves [debug.log] and
    standard output as they would be without it. *)
Theorem preflight_leaves_no_trace (arrival : datetime) (self : Handler)
  (rest : list (datetime * Handler)) (w : World) :
  command self = u "OPTIONS" ->
  fst (serve_forever inherited ((arrival, self) :: rest) w)
  = {| outcome := Ok tt;
       response :=
         [Status 200;
          Header (u "Access-Control-Allow-Origin") (u "*");
          Header (u "Access-Control-Allow-Methods") (u "POST, OPTIONS");
          Header (u "Access-Control-Allow-Headers") (u "Content-Type");
          EndHeaders] |}
    :: fst (serve_forever inherited rest w)
  /\ debug_log (snd (serve_forever inherited ((arrival, self) :: rest) w))
     = debug_log (snd (serve_forever inherited rest w))
  /\ stdout (snd (serve_forever inherited ((arrival, self) :: rest) w))
     = stdout (snd (serve_forever inherited rest w)).
Proof.
  intros Hcmd. cbn [serve_forever].
  rewrite (options_dispatch inherited self Hcmd), do_OPTIONS_sends.
  destruct rest as [|[arrival' self'] rest'].
  - cbn. repeat split; reflexivity.
  - cbn [serve_forever].
    change (with_wire [] (with_clock arrival' (with_wire _ _)))
      with (with_wire [] (with_clock arrival' w)).
    destruct (handle_one_request inherited self' _) as [r w1].
    destruct (serve_forever inherited rest' w1) as [done w2].
    cbn. repeat split; reflexivity.
Qed.

(** X14.  An argument that is not an integer stops the program before it
    does anything: the exception of [int] leaves the [__main__] block, no
    server is made and nothing is printed. *)
Theorem bad_port_argument (prog arg : pystr) (more : list pystr)
  (incoming : list (datetime * Handler)) (w : World) e :
  int_of_str arg = Raise e ->
  main inherited (prog :: arg :: more) incoming w = (Raise e, w).
Proof.
  intros Hint. unfold main.
  cbn [List.length Nat.ltb Nat.leb nth]. unfold bind, eval.
  now rewrite Hint.
Qed.
End ServingLoop.

(** ** The handlers on the sample requests *)

Import Reference Samples.

(** The scenario of the specification: at noon sharp the timestamp has no
    fraction of a second. *)
Example boom_at_noon :
  do_POST boom fresh =
  (Ok tt,
   {| clock := noon;
      debug_log := Some (u "[2024-01-01T12:00:00] ERROR: boom" ++ [10%N]);
      log_fault := log_fault fresh;
      stdout := u "[2024-01-01T12:00:00] ERROR: boom" ++ [10%N];
      wire :=
        [Status 200;
         Header (u "Content-type") (u "application/json");
         Header (u "Access-Control-Allow-Origin") (u "*");
         EndHeaders;
         Body status_ok];
      listening := None;
      bind_fault := bind_fault fresh |}).
Proof. reflexivity. Qed.

Example boom_later :
  debug_log (snd (do_POST boom (with_clock later fresh)))
  = Some (u "[2024-01-01T12:00:01.250000] ERROR: boom" ++ [10%N]).
Proof. reflexivity. Qed.

Example only_message_logged :
  debug_log (snd (do_POST only_message fresh))
  = Some (u "[2024-01-01T12:00:00] LOG: boom" ++ [10%N]).
Proof. reflexivity. Qed.

Example truncated_diagnostic :
  stdout (snd (do_POST truncated fresh))
  = u "Error logging: Unterminated string starting at: line 1 column 18 (char 17)"
    ++ [10%N].
Proof. reflexivity. Qed.

Example read_only_disk :
  do_POST boom read_only =
  (Ok tt,
   {| clock := noon;
      debug_log := Some (u "kept");
      log_fault := log_fault read_only;
      stdout :=
        u "Error logging: [Errno 13] Permission denied: 'debug.log'"
        ++ [10%N];
      wire := [Status 500; EndHeaders];
      listening := None;
      bind_fault := bind_fault read_only |}).
Proof. reflexivity. Qed.

(** Three requests in a row: the second one raises and gets no answer, the
    third one is served. *)
Example three_requests :
  let '(done, w) :=
    serve_forever not_called [(noon, boom); (noon, no_length); (later, boom)]
      fresh in
  map response done
  = [wire (snd (do_POST boom fresh)); []; wire (snd (do_POST boom fresh))]
  /\ debug_log w
     = Some (u "[2024-01-01T12:00:00] ERROR: boom" ++ [10%N]
             ++ u "[2024-01-01T12:00:01.250000] ERROR: boom" ++ [10%N]).
Proof. vm_compute. split; reflexivity. Qed.

Example started_on_8080 :
  stdout (snd (main not_called [u "dev-server.py"; u "8080"] [] fresh))
  = u "Starting development server on port 8080..." ++ [10%N]
    ++ u "Browser logs will be written to debug.log and shown here"
    ++ [10%N].
Proof. reflexivity. Qed.



(** The request without [Content-Length], the one whose [Content-Length] is
    not a number and the one whose body cannot be read: the exception leaves
    the handler and no response is sent, where C2 promises status 500. *)
Lemma missing_length_escapes :
  do_POST no_length fresh
  = (Raise (Exn TypeError
              (u "int() argument must be a string, a bytes-like object or a real number, not 'NoneType'")),
     fresh)
  /\ do_POST bad_length fresh
     = (Raise (Exn ValueError
                 (u "invalid literal for int() with base 10: 'many'")),
        fresh)
  /\ do_POST reset fresh
     = (Raise (Exn OSError (u "[Errno 104] Connection reset by peer")), fresh)
  /\ wire fresh = [].
Proof. repeat split; reflexivity. Qed.

Lemma ingestion_failures_witness :
  (exists w',
      do_POST truncated fresh = (Ok tt, w')
      /\ wire w' = wire fresh ++ [Status 500; EndHeaders])
  /\ (exists e, do_POST no_length fresh = (Raise e, fresh))
  /\ (exists e, do_POST reset fresh = (Raise e, fresh))
  /\ (exists e done,
         serve_forever not_called [(noon, no_length); (later, boom)] fresh
         = ({| outcome := Raise e; response := [] |} :: done,
            snd (do_POST boom (with_clock later fresh)))).
Proof.
  split; [|split; [|split]].
  - destruct (ingestion_failures truncated fresh eq_refl) as (H & _).
    eapply H.
    + reflexivity.
    + reflexivity.
    + eapply Malformed; reflexivity.
  - destruct (ingestion_failures no_length fresh eq_refl) as (_ & H & _).
    eexists. apply H. reflexivity.
  - destruct (ingestion_failures reset fresh eq_refl) as (_ & _ & H & _).
    eexists. eapply H; reflexivity.
  - destruct (ingestion_failures no_length fresh eq_refl) as (_ & _ & _ & H).
    eexists. eexists.
    rewrite (H not_called noon [(later, boom)] _ eq_refl eq_refl).
    reflexivity.
Defined.



Lemma post_malformed_body_witness :
  exists w',
    do_POST truncated fresh = (Ok tt, w')
    /\ wire w' = wire fresh ++ [Status 500; EndHeaders]
    /\ debug_log w' = debug_log fresh
    /\ stdout w'
       = stdout fresh
         ++ u "Error logging: "
         ++ exn_str
              (Exn JSONDecodeError
                 (u "Unterminated string starting at: line 1 column 18 (char 17)"))
         ++ [10%N].
Proof.
  eapply (post_malformed_body truncated fresh); try reflexivity.
  right. eexists. split; reflexivity.
Defined.

(** The request whose level is [NaN]: the body is not valid JSON, and it is
    answered with status 200 and logged, where C4 promises status 500 and
    no write. *)
Lemma nan_is_logged :
  (exists text,
      bytes_decode_utf8 (json_bytes "{'level':NaN}") = Ok text
      /\ rfc8259_valid text = false
      /\ json_loads text = Ok (VDict [(u "level", VFloat (u "nan"))]))
  /\ do_POST nan_level fresh
     = (Ok tt,
        {| clock := noon;
           debug_log := Some (u "[2024-01-01T12:00:00] nan: " ++ [10%N]);
           log_fault := log_fault fresh;
           stdout := u "[2024-01-01T12:00:00] nan: " ++ [10%N];
           wire :=
             [Status 200;
              Header (u "Content-type") (u "application/json");
              Header (u "Access-Control-Allow-Origin") (u "*");
              EndHeaders;
              Body status_ok];
           listening := None;
           bind_fault := bind_fault fresh |}).
Proof.
  split.
  - eexists. repeat split; reflexivity.
  - reflexivity.
Qed.

Lemma post_not_an_object_witness :
  exists w',
    do_POST an_array fresh = (Ok tt, w')
    /\ wire w' = wire fresh ++ [Status 500; EndHeaders]
    /\ debug_log w' = debug_log fresh.
Proof.
  eapply (post_not_an_object an_array fresh); try reflexivity.
  intros entries. vm_compute. discriminate.
Defined.

Lemma post_elsewhere_404_witness :
  do_POST elsewhere read_only
  = (Ok tt, with_wire (wire read_only ++ [Status 404; EndHeaders]) read_only)
  /\ debug_log (snd (do_POST elsewhere read_only)) = debug_log read_only.
Proof.
  apply (post_elsewhere_404 elsewhere read_only).
  vm_compute. discriminate.
Defined.

Lemma post_appends_each_time_witness :
  exists level message,
    level = u "ERROR"
    /\ message = u "boom"
    /\ debug_log (snd (do_POST boom fresh)) =
         Some (file_text (debug_log fresh)
               ++ u "[" ++ isoformat (clock fresh) ++ u "] " ++ level
               ++ u ": " ++ message ++ [10%N])
    /\ forall (w2 w3 : World) r2 evs2,
         debug_log w2 = debug_log (snd (do_POST boom fresh)) ->
         do_POST boom w2 = (r2, w3) ->
         wire w3 = wire w2 ++ Status 200 :: evs2 ->
         debug_log w3 =
           Some (file_text (debug_log fresh)
                 ++ u "[" ++ isoformat (clock fresh) ++ u "] " ++ level
                 ++ u ": " ++ message ++ [10%N]
                 ++ u "[" ++ isoformat (clock w2) ++ u "] " ++ level
                 ++ u ": " ++ message ++ [10%N]).
Proof.
  edestruct (@post_appends_each_time _ boom fresh (snd (do_POST boom fresh))
               (Ok tt))
    as (n & body & text & entries & level & message & Hn & Hbody & Htext
        & Hentries & _ & _ & HL & HM & Hlog & _ & Hagain);
    [reflexivity | reflexivity | ].
  vm_compute in Hn. injection Hn as <-.
  vm_compute in Hbody. injection Hbody as <-.
  vm_compute in Htext. injection Htext as <-.
  vm_compute in Hentries. injection Hentries as <-.
  exists level, message.
  split; [apply HL; reflexivity|].
  split; [apply HM; reflexivity|].
  split; [exact Hlog|exact Hagain].
Defined.

(** The request whose message has a line end: it is answered with status
    200 and [debug.log] gains two lines, where C7 promises exactly one. *)
Lemma two_lines_appended :
  exists w',
    do_POST Scenarios.two_lines fresh = (Ok tt, w')
    /\ wire w' =
         [Status 200;
          Header (u "Content-type") (u "application/json");
          Header (u "Access-Control-Allow-Origin") (u "*");
          EndHeaders;
          Body status_ok]
    /\ debug_log w'
       = Some (u "[2024-01-01T12:00:00] ERROR: a" ++ [10%N]
               ++ u "b" ++ [10%N])
    /\ count_newlines (file_text (debug_log w')) = 2.
Proof. eexists. repeat split; reflexivity. Qed.

Lemma logged_line_echoed_witness :
  exists text,
    debug_log (snd (do_POST boom fresh))
    = Some (file_text (debug_log fresh) ++ text ++ [10%N])
    /\ stdout (snd (do_POST boom fresh)) = stdout fresh ++ text ++ [10%N].
Proof.
  eapply logged_line_echoed with (self := boom) (w := fresh); reflexivity.
Defined.

Lemma cli_port_witness :
  main not_called [u "dev-server.py"] [] fresh = run not_called 8000 [] fresh
  /\ main not_called [u "dev-server.py"; u "8080"; u "extra"] [] fresh
     = run not_called 8080 [] fresh
  /\ (exists w0,
         listening w0 = Some (u "", 8080%Z)
         /\ run not_called 8080 [] fresh = (Ok [], w0))
  /\ run not_called (-1) [] fresh
     = (Raise (Exn OverflowError (u "bind(): port must be 0-65535.")), fresh)
  /\ run not_called 8000 [] port_taken
     = (Raise (Exn OSError (u "[Errno 98] Address already in use")),
        port_taken).
Proof.
  split; [|split; [|split; [|split]]].
  - destruct (cli_port not_called [u "dev-server.py"] [] fresh) as (H & _).
    apply H. cbn. lia.
  - destruct (cli_port not_called
                [u "dev-server.py"; u "8080"; u "extra"] [] fresh)
      as (_ & H & _).
    eapply H; reflexivity.
  - destruct (cli_port not_called [] [] fresh) as (_ & _ & H & _).
    destruct (H 8080%Z) as (w0 & Hlisten & _ & Hrun);
      [lia | reflexivity | ].
    exists w0. split; [exact Hlisten|exact Hrun].
  - destruct (cli_port not_called [] [] fresh) as (_ & _ & _ & H & _).
    apply H. lia.
  - destruct (cli_port not_called [] [] port_taken) as (_ & _ & _ & _ & H).
    apply H; [lia | reflexivity].
Defined.

(** The argument [70000]: it is an integer, and no server listens on it;
    [HTTPServer] raises and the program ends before it prints anything,
    where C10 promises that the argument is used as the listening port. *)
Lemma port_70000_refused :
  int_of_str (u "70000") = Ok 70000%Z
  /\ main not_called [u "dev-server.py"; u "70000"] [] fresh
     = (Raise (Exn OverflowError (u "bind(): port must be 0-65535.")), fresh)
  /\ listening fresh = None
  /\ stdout fresh = [].
Proof. repeat split; reflexivity. Qed.

(** ** More runs on sample requests *)

Import Scenarios.

Example typed_fields_logged :
  debug_log (snd (do_POST typed_fields fresh))
  = Some (u "[2024-01-01T12:00:00] 5: True" ++ [10%N]).
Proof. reflexivity. Qed.

Example two_lines_logged :
  debug_log (snd (do_POST two_lines fresh))
  = Some (u "[2024-01-01T12:00:00] ERROR: a" ++ [10%N] ++ u "b" ++ [10%N]).
Proof. reflexivity. Qed.

Example morning_log :
  debug_log (snd (serve_forever not_called morning fresh))
  = Some (u "[2024-01-01T12:00:00] ERROR: boom" ++ [10%N]
          ++ u "[2024-01-01T12:00:01.250000] LOG: boom" ++ [10%N]).
Proof. vm_compute. reflexivity. Qed.

Lemma do_POST_sends_only_witness :
  exists sent,
    wire (snd (do_POST boom fresh)) = wire fresh ++ sent
    /\ Forall
         (fun ev =>
            match ev with
            | Status code => code = 200%Z \/ code = 404%Z \/ code = 500%Z
            | Header name value =>
                (name = u "Content-type" /\ value = u "application/json")
                \/ (name = u "Access-Control-Allow-Origin" /\ value = u "*")
            | EndHeaders => True
            | Body data => data = status_ok
            end) sent
    /\ (forall data, In (Body data) sent ->
        exists more, sent = Status 200 :: more).
Proof.
  apply (@do_POST_sends_only _ boom fresh (snd (do_POST boom fresh)) (Ok tt)).
  reflexivity.
Defined.


Lemma only_length_and_body_matter_witness :
  do_POST boom busy = do_POST padded busy.
Proof.
  eapply only_length_and_body_matter with (n := 34%Z);
    first [reflexivity | lia].
Defined.

Lemma negative_length_escapes_witness :
  do_POST negative_length fresh
  = (Raise (Exn ValueError (u "read length must be non-negative or -1")),
     fresh)
  /\ do_POST huge_negative_length fresh
     = (Raise (Exn OverflowError
                 (u "cannot fit 'int' into an index-sized integer")),
        fresh).
Proof.
  split.
  - eapply negative_length_escapes with (n := (-5)%Z);
      first [reflexivity | lia].
  - eapply negative_length_escapes with (n := (-9223372036854775809)%Z);
      first [reflexivity | lia].
Defined.

Lemma other_keys_are_ignored_witness :
  do_POST boom fresh = do_POST with_id fresh.
Proof.
  eapply other_keys_are_ignored; reflexivity.
Defined.


Lemma answer_is_stateless_witness :
  fst (do_POST boom fresh) = fst (do_POST boom busy)
  /\ exists reply printed,
       wire (snd (do_POST boom fresh)) = wire fresh ++ reply
       /\ wire (snd (do_POST boom busy)) = wire busy ++ reply
       /\ stdout (snd (do_POST boom fresh)) = stdout fresh ++ printed
       /\ stdout (snd (do_POST boom busy)) = stdout busy ++ printed.
Proof.
  apply (answer_is_stateless boom fresh busy); reflexivity.
Defined.

Lemma path_must_match_exactly_witness :
  do_POST with_query fresh
  = (Ok tt, with_wire (wire fresh ++ [Status 404; EndHeaders]) fresh).
Proof.
  apply (path_must_match_exactly with_query fresh (suffix := u "?x=1")).
  - discriminate.
  - reflexivity.
Defined.



Lemma banner_comes_first_witness :
  listening (snd (run not_called 8080 morning fresh)) = Some (u "", 8080%Z)
  /\ exists printed,
       stdout (snd (run not_called 8080 morning fresh))
       = stdout fresh
         ++ u "Starting development server on port " ++ str_int 8080
         ++ u "..." ++ [10%N]
         ++ u "Browser logs will be written to debug.log and shown here"
         ++ [10%N] ++ printed.
Proof.
  apply (@banner_comes_first _ not_called 8080 morning fresh).
  - lia.
  - reflexivity.
  - repeat constructor.
Defined.

Lemma preflight_leaves_no_trace_witness :
  fst (serve_forever not_called ((noon, preflight) :: morning) fresh)
  = {| outcome := Ok tt;
       response :=
         [Status 200;
          Header (u "Access-Control-Allow-Origin") (u "*");
          Header (u "Access-Control-Allow-Methods") (u "POST, OPTIONS");
          Header (u "Access-Control-Allow-Headers") (u "Content-Type");
          EndHeaders] |}
    :: fst (serve_forever not_called morning fresh)
  /\ debug_log (snd (serve_forever not_called ((noon, preflight) :: morning)
                       fresh))
     = debug_log (snd (serve_forever not_called morning fresh))
  /\ stdout (snd (serve_forever not_called ((noon, preflight) :: morning)
                    fresh))
     = stdout (snd (serve_forever not_called morning fresh)).
Proof.
  apply (preflight_leaves_no_trace not_called noon preflight morning fresh).
  reflexivity.
Defined.

Lemma bad_port_argument_witness :
  main not_called [u "dev-server.py"; u "http"] morning fresh
  = (Raise (Exn ValueError
              (u "invalid literal for int() with base 10: 'http'")),
     fresh).
Proof.
  apply (bad_port_argument not_called (u "dev-server.py") (u "http") []
           morning fresh).
  reflexivity.
Defined.
